(** * CONSOLEBOMBAS: the mock nozzle controller of [server.ts]

    A shallow embedding of the in-memory nozzle array, of the two API
    routes ([GET /api/status], [POST /api/command]) and of the timer
    callbacks that the [AUTHORIZE] command schedules, followed by the
    properties of the nozzle lifecycle that hold (or fail) on it. *)

From Stdlib Require Import ZArith String Ascii Bool Lia DecimalString.
From Stdlib Require Import Floats.SpecFloat.
From stdpp Require Import base tactics option list strings.

Local Open Scope string_scope.
Local Open Scope Z_scope.

(** ** JavaScript numbers

    A JS [number] is an IEEE 754 binary64 value.  [spec_float] with
    precision 53 and maximal exponent 1024 is exactly that format; the
    arithmetic below is the correctly rounded (nearest, ties to even)
    arithmetic of the language. *)
Module JsNumber.

Definition prec : Z := 53.
Definition emax : Z := 1024.

Definition number : Type := spec_float.

(** An integer literal (exact below 2^53). *)
Definition of_Z (z : Z) : number := binary_normalize prec emax z 0 false.

Definition add : number -> number -> number := SFadd prec emax.
Definition mul : number -> number -> number := SFmul prec emax.
Definition div : number -> number -> number := SFdiv prec emax.

(** [x >= y] and [x <= y]. *)
Definition geb (x y : number) : bool := SFleb y x.
Definition leb (x y : number) : bool := SFleb x y.

(** The number denoted by the decimal numeral [n / 10^digits], that is
    the double nearest to it: a literal such as [5.89] or [0.5], or
    [Number("2.94")].  Numerator and denominator are exact doubles and
    the division is correctly rounded. *)
Definition decimal (n : Z) (digits : nat) : number :=
  div (of_Z n) (of_Z (10 ^ Z.of_nat digits)).

(** The text produced by [x.toFixed(2)], kept as data: either a sign
    and an integer count of hundredths, or (for NaN, the infinities and
    magnitudes from 1e21 on) a text that denotes [x] itself. *)
Inductive fixed :=
| Hundredths (negative : bool) (n : Z)
| Verbatim (x : number).

(** [Number.prototype.toFixed] with [fractionDigits = 2]: the integer
    [n] for which [n / 100 - |x|] is as close to zero as possible, the
    larger one when there are two. For [|x| = m * 2^e] that is
    [floor (100 * m * 2^e + 1/2)]. *)
Definition toFixed2 (x : number) : fixed :=
  match x with
  | S754_zero _ => Hundredths false 0
  | S754_finite s m e =>
      if geb (SFabs x) (of_Z (10 ^ 21)) then Verbatim x
      else
        let n := if 0 <=? e then Z.pos m * 2 ^ e * 100
                 else (200 * Z.pos m + 2 ^ (- e)) / 2 ^ (- e + 1) in
        Hundredths s n
  | _ => Verbatim x
  end.

(** [Number(text)] on the texts [toFixed] produces. *)
Definition Number (t : fixed) : number :=
  match t with
  | Hundredths false n => decimal n 2
  | Hundredths true n => SFopp (decimal n 2)
  | Verbatim x => x
  end.

End JsNumber.

Import JsNumber.

(** ** Data model *)

(** [type NozzleStatus = 'L' | 'A' | 'B' | 'E' | 'P' | 'F' | 'C' | ' '],
    named after the labels of the dashboard. *)
Inductive NozzleStatus :=
| Free          (* 'L' Livre *)
| Authorized    (* 'A' Abastecendo *)
| Blocked       (* 'B' Bloqueado *)
| Waiting       (* 'E' Espera *)
| Ready         (* 'P' Pronto *)
| Failed        (* 'F' Falha *)
| Completed     (* 'C' Concluiu *)
| Unconfigured. (* ' ' *)

Definition status_code (st : NozzleStatus) : string :=
  match st with
  | Free => "L" | Authorized => "A" | Blocked => "B" | Waiting => "E"
  | Ready => "P" | Failed => "F" | Completed => "C" | Unconfigured => " "
  end.

#[global] Instance NozzleStatus_eq_dec : EqDecision NozzleStatus.
Proof. solve_decision. Defined.

Record FuelingData := mkFueling {
  volume : number;
  total : number;
  price : number
}.

#[global] Instance number_eq_dec : EqDecision number.
Proof. unfold number. solve_decision. Defined.

#[global] Instance FuelingData_eq_dec : EqDecision FuelingData.
Proof. solve_decision. Defined.

#[global] Instance fixed_eq_dec : EqDecision fixed.
Proof. solve_decision. Defined.

Record Nozzle := mkNozzle {
  id : string;
  status : NozzleStatus;
  currentFueling : option FuelingData   (* [None] is [null] *)
}.

Definition set_status (st : NozzleStatus) (n : Nozzle) : Nozzle :=
  mkNozzle (id n) st (currentFueling n).

Definition set_currentFueling (f : option FuelingData) (n : Nozzle) : Nozzle :=
  mkNozzle (id n) (status n) f.

(** [s.padStart(len, c)] for a one-character filler. *)
Fixpoint repeat_char (c : ascii) (k : nat) : string :=
  match k with
  | O => ""
  | S k' => String c (repeat_char c k')
  end.

Definition padStart (len : nat) (c : ascii) (s : string) : string :=
  repeat_char c (len - String.length s) ++ s.

(** [(i).toString()] for a natural number. *)
Definition toString (i : nat) : string :=
  NilEmpty.string_of_uint (Nat.to_uint i).

(** [Array.from({ length: 48 }, (_, i) => ({ id: ..., status: 'L',
    currentFueling: null }))]. *)
Definition make_nozzle (i : nat) : Nozzle :=
  mkNozzle (padStart 2 "0"%char (toString (i + 1))) Free None.

Definition initial_nozzles : list Nozzle := map make_nozzle (seq 0 48).


(** ** The server state

    Besides the [nozzles] array the event loop holds the pending timers.
    A callback closes over the [nozzle] object it was created for; the
    array is never resized or reordered, so the object is named here by
    its index [ix].  An interval also closes over its own handle. *)
Inductive Callback :=
| Promote (ix : nat)   (* [setTimeout(..., 2000)] of [AUTHORIZE] *)
| Tick (ix : nat)      (* [setInterval(..., 500)] *)
| Reset (ix : nat).    (* [setTimeout(..., 3000)] after completion *)

#[global] Instance Callback_eq_dec : EqDecision Callback.
Proof. solve_decision. Defined.

Record Timer := mkTimer {
  handle : nat;
  due : Z;              (* milliseconds *)
  callback : Callback
}.

Record State := mkState {
  now : Z;
  nozzles : list Nozzle;
  timers : list Timer;
  next_handle : nat
}.

Definition initial_state : State := mkState 0 initial_nozzles [] 0.

Definition update_nozzle (ix : nat) (f : Nozzle -> Nozzle) (s : State) : State :=
  mkState (now s) (alter f ix (nozzles s)) (timers s) (next_handle s).

(** [setTimeout(cb, delay)] and [setInterval(cb, delay)]: a new pending
    timer, first due [delay] ms from now. *)
Definition setTimer (delay : Z) (cb : Callback) (s : State) : State :=
  mkState (now s) (nozzles s)
          (timers s ++ [mkTimer (next_handle s) (now s + delay) cb])
          (S (next_handle s)).

(** [clearInterval(h)]; also how a timeout leaves the list once it ran. *)
Definition clearTimer (h : nat) (s : State) : State :=
  mkState (now s) (nozzles s)
          (filter (fun t => handle t <> h) (timers s))
          (next_handle s).

(** An interval whose callback returned without clearing it is due again
    one period later. *)
Definition rearm (h : nat) (period : Z) (s : State) : State :=
  mkState (now s) (nozzles s)
          (map (fun t => if decide (handle t = h)
                         then mkTimer h (now s + period) (callback t)
                         else t) (timers s))
          (next_handle s).

Definition set_now (t : Z) (s : State) : State :=
  mkState t (nozzles s) (timers s) (next_handle s).

(** ** Timer callbacks *)

(** [{ volume: 0, total: 0, price: 5.89 }] *)
Definition new_fueling : FuelingData :=
  mkFueling (of_Z 0) (of_Z 0) (decimal 589 2).

(** The body of the 2000 ms timeout:
    [if (nozzle.status === 'P') { nozzle.status = 'A';
       nozzle.currentFueling = {...}; const interval = setInterval(...) }] *)
Definition promote (ix : nat) (s : State) : State :=
  match nozzles s !! ix with
  | Some n =>
      if decide (status n = Ready) then
        setTimer 500 (Tick ix)
          (update_nozzle ix
             (fun n => set_currentFueling (Some new_fueling)
                         (set_status Authorized n)) s)
      else s
  | None => s
  end.

(** One tick on the fueling record:
    [volume += 0.5; total = Number((volume * price).toFixed(2))]. *)
Definition tick_fueling (f : FuelingData) : FuelingData :=
  let v := add (volume f) (decimal 5 1) in
  mkFueling v (Number (toFixed2 (mul v (price f)))) (price f).

(** The body of the 500 ms interval with handle [h]. *)
Definition tick (h ix : nat) (s : State) : State :=
  match nozzles s !! ix with
  | Some n =>
      if decide (status n <> Authorized) then clearTimer h s
      else
        match currentFueling n with
        | Some f =>
            let f' := tick_fueling f in
            let s1 := update_nozzle ix (set_currentFueling (Some f')) s in
            if geb (volume f') (of_Z 20) then
              clearTimer h
                (setTimer 3000 (Reset ix)
                   (update_nozzle ix (set_status Completed) s1))
            else rearm h 500 s1
        | None => rearm h 500 s
        end
  | None => s
  end.

(** The body of the 3000 ms timeout:
    [nozzle.status = 'L'; nozzle.currentFueling = null]. *)
Definition reset (ix : nat) (s : State) : State :=
  update_nozzle ix
    (fun n => set_currentFueling None (set_status Free n)) s.

(** ** HTTP routes *)

(** A field of the JSON request body: a string, or anything else
    (a number, [null], an object, a missing field).  Only strings can be
    [===] to a nozzle id or to a [case] label. *)
Inductive JsValue :=
| JsString (s : string)
| JsOther.

#[global] Instance JsValue_eq_dec : EqDecision JsValue.
Proof. solve_decision. Defined.

Inductive Payload :=
| NozzleList (l : list Nozzle)          (* [nozzles] *)
| Success (nozzle : Nozzle)             (* [{ success: true, nozzle }] *)
| Error (message : string).             (* [{ error: message }] *)

Record Response := Json { http_status : Z; payload : Payload }.

(** [app.get("/api/status", (req, res) => { res.json(nozzles); })] *)
Definition get_status (s : State) : Response :=
  Json 200 (NozzleList (nozzles s)).

(** [nozzles.find(n => n.id === nozzleId)]: the first match, with its
    position in the array. *)
Definition find_nozzle (nozzleId : JsValue) (l : list Nozzle)
  : option (nat * Nozzle) :=
  list_find (fun n => JsString (id n) = nozzleId) l.

(** The [switch (command)] statement. *)
Definition run_command (command : JsValue) (ix : nat) (n : Nozzle)
    (s : State) : State :=
  if decide (command = JsString "AUTHORIZE") then
    if decide (status n = Waiting \/ status n = Blocked) then
      setTimer 2000 (Promote ix) (update_nozzle ix (set_status Ready) s)
    else s
  else if decide (command = JsString "BLOCK") then
    update_nozzle ix (set_status Blocked) s
  else if decide (command = JsString "FREE") then
    update_nozzle ix (set_status Free) s
  else s.

(** [app.post("/api/command", ...)] on the body [{ nozzleId, command }].
    The reply serialises the [nozzle] object as it is after the switch. *)
Definition post_command (nozzleId command : JsValue) (s : State)
  : State * Response :=
  match find_nozzle nozzleId (nozzles s) with
  | None => (s, Json 404 (Error "Nozzle not found"))
  | Some (ix, n) =>
      let s' := run_command command ix n s in
      (s', Json 200 (Success (default n (nozzles s' !! ix))))
  end.

(** ** The event loop

    Time is in milliseconds.  Timers run at their due time, earliest
    first (either order when two are due together); a request is handled
    at its arrival time, which no pending timer precedes. *)
Inductive Event :=
| Post (time : Z) (nozzleId command : JsValue)
| Fire (h : nat).

Definition run_callback (t : Timer) (s : State) : State :=
  match callback t with
  | Promote ix => promote ix (clearTimer (handle t) s)
  | Tick ix => tick (handle t) ix s
  | Reset ix => reset ix (clearTimer (handle t) s)
  end.

Definition fire (h : nat) (s : State) : option State :=
  match list_find (fun t => handle t = h) (timers s) with
  | Some (_, t) =>
      if forallb (fun t' => due t <=? due t') (timers s)
      then Some (run_callback t (set_now (Z.max (now s) (due t)) s))
      else None
  | None => None
  end.

Definition post (time : Z) (nozzleId command : JsValue) (s : State)
  : option (State * Response) :=
  if (now s <=? time) && forallb (fun t => time <=? due t) (timers s)
  then Some (post_command nozzleId command (set_now time s))
  else None.

Definition step (s : State) (e : Event) : option State :=
  match e with
  | Post time nozzleId command => fst <$> post time nozzleId command s
  | Fire h => fire h s
  end.

Fixpoint run (s : State) (evs : list Event) : option State :=
  match evs with
  | [] => Some s
  | e :: evs' =>
      match step s e with
      | Some s' => run s' evs'
      | None => None
      end
  end.

(** The states the server can be in. *)
Definition reachable (s : State) : Prop :=
  exists evs, run initial_state evs = Some s.

(** The nozzle with array index [ix], as the Snapshot Reader shows it. *)
Definition nozzle_at (ix : nat) (s : State) : option Nozzle :=
  nozzles s !! ix.

Definition cmd (time : Z) (nozzleId command : string) : Event :=
  Post time (JsString nozzleId) (JsString command).


(** ** What one event does to one nozzle

    Every way in which an event can change a nozzle record, one
    constructor per assignment site of the source. *)
Inductive nozzle_step : Event -> Nozzle -> Nozzle -> Prop :=
| ns_idle e n :
    nozzle_step e n n
| ns_authorize t n :
    status n = Waiting \/ status n = Blocked ->
    nozzle_step (Post t (JsString (id n)) (JsString "AUTHORIZE"))
                n (set_status Ready n)
| ns_block t n :
    nozzle_step (Post t (JsString (id n)) (JsString "BLOCK"))
                n (set_status Blocked n)
| ns_free t n :
    nozzle_step (Post t (JsString (id n)) (JsString "FREE"))
                n (set_status Free n)
| ns_promote h n :
    status n = Ready ->
    nozzle_step (Fire h) n
                (set_currentFueling (Some new_fueling) (set_status Authorized n))
| ns_tick h n f :
    status n = Authorized ->
    currentFueling n = Some f ->
    geb (volume (tick_fueling f)) (of_Z 20) = false ->
    nozzle_step (Fire h) n (set_currentFueling (Some (tick_fueling f)) n)
| ns_complete h n f :
    status n = Authorized ->
    currentFueling n = Some f ->
    geb (volume (tick_fueling f)) (of_Z 20) = true ->
    nozzle_step (Fire h) n
                (set_status Completed
                   (set_currentFueling (Some (tick_fueling f)) n))
| ns_reset h n :
    nozzle_step (Fire h) n (set_currentFueling None (set_status Free n)).

#[local] Hint Constructors nozzle_step : core.

#[local] Arguments of_Z : simpl never.
#[local] Arguments decimal : simpl never.
#[local] Arguments geb : simpl never.
#[local] Arguments tick_fueling : simpl never.

(** ** Scenarios and auxiliary notions used by the properties *)

(** The ids as the specification lists them. *)
Definition two_digit_ids : list string :=
  ["01"; "02"; "03"; "04"; "05"; "06"; "07"; "08"; "09"; "10"; "11";
   "12"; "13"; "14"; "15"; "16"; "17"; "18"; "19"; "20"; "21"; "22";
   "23"; "24"; "25"; "26"; "27"; "28"; "29"; "30"; "31"; "32"; "33";
   "34"; "35"; "36"; "37"; "38"; "39"; "40"; "41"; "42"; "43"; "44";
   "45"; "46"; "47"; "48"].

(** The record after [k] ticks of one fueling. *)
Definition fueling_after (k : nat) : FuelingData :=
  Nat.iter k tick_fueling new_fueling.

(** Every nozzle starts [Free], from where [AUTHORIZE] is ignored; a
    fueling is therefore started by [BLOCK], [AUTHORIZE] and the
    promotion timer (handle 0, due at 2000 ms). *)
Definition start_fueling (nid : string) : list Event :=
  [cmd 0 nid "BLOCK"; cmd 0 nid "AUTHORIZE"; Fire 0].

(** ... has its first tick (interval handle 1) at 2500 ms ... *)
Definition first_tick : list Event :=
  (start_fueling "05" ++ [Fire 1])%list.

(** ... and runs to completion with 40 ticks of the interval (handle 1),
    the last one at 22000 ms; the reset timer (handle 2) is then due at
    25000 ms. *)
Definition complete_fueling (nid : string) : list Event :=
  (start_fueling nid ++ repeat (Fire 1) 40)%list.

(** Nozzle "12" is made Ready at 0 ms (promotion timer 0, due at 2000),
    blocked at 100 ms and authorized again at 1900 ms (promotion timer 1,
    due at 3900). *)
Definition block_then_reauthorize : list Event :=
  [cmd 0 "12" "BLOCK"; cmd 0 "12" "AUTHORIZE";
   cmd 100 "12" "BLOCK"; cmd 1900 "12" "AUTHORIZE"].

(** Nozzle "12" is authorized three times while blocked in between, so
    that three promotion timers are pending (handles 0, 1, 2, due at
    2000, 3200 and 3300).  The first one starts a fueling whose interval
    has handle 3; it ticks at 2500 and 3000. *)
Definition first_episode : list Event :=
  [cmd 0 "12" "BLOCK"; cmd 0 "12" "AUTHORIZE";
   cmd 1200 "12" "BLOCK"; cmd 1200 "12" "AUTHORIZE";
   cmd 1300 "12" "BLOCK"; cmd 1300 "12" "AUTHORIZE";
   Fire 0; Fire 3; Fire 3].

(** The fueling is blocked at 3100 ms.  The nozzle is authorized again
    and the two older promotion timers fire at 3200 and 3300, each
    starting another interval (handles 5 and 7) on the same nozzle before
    interval 3 is next due (3500), so interval 3 never sees a status
    other than Authorized.  The three intervals then tick in turn (the
    promotion timers 4 and 6 of the later requests fire in between, to
    no effect) until 39 ticks have been counted. *)
Definition after_block : list Event :=
  ([cmd 3100 "12" "BLOCK"; cmd 3150 "12" "AUTHORIZE"; Fire 1;
    cmd 3250 "12" "BLOCK"; cmd 3260 "12" "AUTHORIZE"; Fire 2]
   ++ [Fire 3; Fire 5; Fire 7; Fire 3; Fire 5; Fire 7;
       Fire 3; Fire 5; Fire 7; Fire 3]
   ++ [Fire 4; Fire 5; Fire 6; Fire 7]
   ++ concat (repeat [Fire 3; Fire 5; Fire 7] 9))%list.


(** [e] is a [BLOCK] or [FREE] request for the nozzle at index [ix],
    sent while that nozzle is Authorized or Completed: it cuts the
    fueling of that nozzle short. *)
Definition interrupts_nozzle (ix : nat) (s : State) (e : Event) : bool :=
  match e, nozzle_at ix s with
  | Post _ nid c, Some n =>
      bool_decide (nid = JsString (id n) /\
                   (c = JsString "BLOCK" \/ c = JsString "FREE") /\
                   (status n = Authorized \/ status n = Completed))
  | _, _ => false
  end.

(** [run], restricted to event sequences in which the fueling of the
    nozzle at [ix] is never cut short by a command; what is sent to the
    other nozzles does not matter. *)
Fixpoint run_uninterrupted (ix : nat) (s : State) (evs : list Event)
  : option State :=
  match evs with
  | [] => Some s
  | e :: evs' =>
      if interrupts_nozzle ix s e then None
      else match step s e with
           | Some s' => run_uninterrupted ix s' evs'
           | None => None
           end
  end.


(** The event from [s] to [s'] began a fueling episode on nozzle [ix]:
    the promotion from Ready to Authorized, which installs a new
    record. *)
Definition starts_episode (ix : nat) (s s' : State) : bool :=
  match nozzle_at ix s, nozzle_at ix s' with
  | Some n, Some n' =>
      bool_decide (status n = Ready /\ status n' = Authorized)
  | _, _ => false
  end.

(** [run], restricted to event sequences during which no new episode
    begins on nozzle [ix]. *)
Fixpoint run_episode (ix : nat) (s : State) (evs : list Event)
  : option State :=
  match evs with
  | [] => Some s
  | e :: evs' =>
      match step s e with
      | Some s' =>
          if starts_episode ix s s' then None else run_episode ix s' evs'
      | None => None
      end
  end.

(** The state a scenario ends in. *)
Definition state_after (evs : list Event) : State :=
  default initial_state (run initial_state evs).

(** [e] is an [AUTHORIZE] request for the nozzle with id [nid]. *)
Definition is_authorize_for (nid : string) (e : Event) : bool :=
  match e with
  | Post _ i c =>
      bool_decide (i = JsString nid /\ c = JsString "AUTHORIZE")
  | Fire _ => false
  end.

(** ** Further notions: targets of events *)

Definition callback_nozzle (c : Callback) : nat :=
  match c with
  | Promote ix | Tick ix | Reset ix => ix
  end.

(** The array index of the one nozzle object an event can assign to: the
    object [find] returned, or the object the fired callback closes
    over. *)
Definition event_target (s : State) (e : Event) : option nat :=
  match e with
  | Post _ nid _ => fst <$> find_nozzle nid (nozzles s)
  | Fire h =>
      (fun p => callback_nozzle (callback (snd p)))
        <$> list_find (fun t => handle t = h) (timers s)
  end.

(** [e] is a [BLOCK] request. *)
Definition is_block (e : Event) : bool :=
  match e with
  | Post _ _ c => bool_decide (c = JsString "BLOCK")
  | Fire _ => false
  end.

(** ** The dashboard ([App.tsx]) *)

(** The [disabled] attributes of the three command buttons of the
    control panel:
    [!['B', 'E'].includes(selectedNozzle.status)],
    [selectedNozzle.status === 'B'] and
    [selectedNozzle.status === 'L']. *)
Definition authorize_disabled (sel : Nozzle) : bool :=
  negb (bool_decide (status sel ∈ [Blocked; Waiting])).

Definition block_disabled (sel : Nozzle) : bool :=
  bool_decide (status sel = Blocked).

Definition free_disabled (sel : Nozzle) : bool :=
  bool_decide (status sel = Free).



(** A call of one of the component's state setters. *)
Inductive Write :=
| SetNozzles (l : list Nozzle)
| SetSelectedNozzle (n : Nozzle)
| SetLoading (b : bool).

(** [fetchStatus]: the setter calls one invocation makes, in order.
    [isConnected] and [selectedNozzle] are the values in the closure of
    the render that created the function; [reply] is what the two
    [await]s deliver, [Some data] for the parsed array and [None] when
    one of them throws (the [catch] branch).  The early [return] when
    not connected is before the [try], so [finally] does not run
    then. *)
Definition fetchStatus (isConnected : bool) (selectedNozzle : option Nozzle)
    (reply : option (list Nozzle)) : list Write :=
  if negb isConnected then []
  else
    match reply with
    | Some data =>
        (SetNozzles data
           :: match selectedNozzle with
              | Some cur =>
                  match snd <$> list_find (fun n => id n = id cur) data with
                  | Some updated => [SetSelectedNozzle updated]
                  | None => []
                  end
              | None => []
              end
           ++ [SetLoading false])%list
    | None => [SetLoading false]
    end.

(** ** A fueling on an otherwise idle server

    The state [k] ticks into a fueling of the nozzle [n] at index [ix]
    that was authorized at time [t] in state [s], when [s] had no
    pending timer. *)
Definition ticking_state (s : State) (ix : nat) (n : Nozzle) (t : Z)
    (k : nat) : State :=
  mkState (t + 2000 + 500 * Z.of_nat k)
          (<[ix := mkNozzle (id n) Authorized (Some (fueling_after k))]>
             (nozzles s))
          [mkTimer (S (next_handle s))
                   (t + 2000 + 500 * Z.of_nat (S k)) (Tick ix)]
          (S (S (next_handle s))).

(** The requests and timer firings of that fueling, up to tick [k]. *)
Definition fueling_run (s : State) (nid : string) (t : Z) (k : nat)
  : list Event :=
  (cmd t nid "AUTHORIZE" :: Fire (next_handle s)
     :: repeat (Fire (S (next_handle s))) k)%list.

(** ** Basic facts about the state operations *)

Lemma lookup_alter_step {X} (R : X -> X -> Prop) (f : X -> X)
    (l : list X) (i j : nat) (x : X) :
  l !! j = Some x ->
  R x x -> (i = j -> R x (f x)) ->
  exists y, alter f i l !! j = Some y /\ R x y.
Proof.
  intros Hj Hrefl Hf.
  destruct (decide (i = j)) as [->|Hne].
  - exists (f x). rewrite list_lookup_alter_eq, Hj. auto.
  - exists x. rewrite list_lookup_alter_ne by done. auto.
Qed.

Lemma find_nozzle_Some nozzleId l ix n :
  find_nozzle nozzleId l = Some (ix, n) ->
  l !! ix = Some n /\ JsString (id n) = nozzleId.
Proof.
  unfold find_nozzle. intros H. apply list_find_Some in H. tauto.
Qed.

Lemma find_nozzle_None nozzleId l :
  find_nozzle nozzleId l = None <->
  forall n, n ∈ l -> JsString (id n) <> nozzleId.
Proof.
  unfold find_nozzle. rewrite list_find_None, Forall_forall. done.
Qed.

Lemma run_command_nozzle_at command ix0 n0 s t ix n :
  nozzles s !! ix0 = Some n0 ->
  nozzles s !! ix = Some n ->
  exists n', nozzles (run_command command ix0 n0 s) !! ix = Some n' /\
             nozzle_step (Post t (JsString (id n0)) command) n n'.
Proof.
  intros H0 Hix. unfold run_command.
  repeat case_decide; subst; simpl; eauto;
    (apply lookup_alter_step; [done | auto |]);
    intros ->; rewrite H0 in Hix; injection Hix as <-; auto.
Qed.

Lemma promote_nozzle_at h ix0 s ix n :
  nozzles s !! ix = Some n ->
  exists n', nozzles (promote ix0 s) !! ix = Some n' /\
             nozzle_step (Fire h) n n'.
Proof.
  intros Hix. unfold promote.
  destruct (nozzles s !! ix0) as [n0|] eqn:H0; eauto.
  case_decide; eauto. simpl.
  apply lookup_alter_step; [done | auto |].
  intros ->. rewrite H0 in Hix. injection Hix as <-. auto.
Qed.

Lemma tick_nozzle_at h ix0 s ix n :
  nozzles s !! ix = Some n ->
  exists n', nozzles (tick h ix0 s) !! ix = Some n' /\
             nozzle_step (Fire h) n n'.
Proof.
  intros Hix. unfold tick.
  destruct (nozzles s !! ix0) as [n0|] eqn:H0; eauto.
  case_decide as Hst; [simpl; eauto|].
  destruct (currentFueling n0) as [f|] eqn:Hf; [|simpl; eauto].
  cbv zeta.
  destruct (geb (volume (tick_fueling f)) (of_Z 20)) eqn:Hge; simpl.
  - rewrite list_alter_alter_eq.
    apply lookup_alter_step; [done | auto |].
    intros ->. rewrite H0 in Hix. injection Hix as <-.
    simpl. eapply ns_complete; eauto.
  - apply lookup_alter_step; [done | auto |].
    intros ->. rewrite H0 in Hix. injection Hix as <-. eauto.
Qed.

Lemma reset_nozzle_at h ix0 s ix n :
  nozzles s !! ix = Some n ->
  exists n', nozzles (reset ix0 s) !! ix = Some n' /\
             nozzle_step (Fire h) n n'.
Proof.
  intros Hix. unfold reset. simpl.
  apply lookup_alter_step; [done | auto |].
  intros ->. auto.
Qed.

(** Every event maps each nozzle to a nozzle at the same index, by one
    of the transitions of [nozzle_step]. *)
Lemma step_nozzle_at s e s' ix n :
  step s e = Some s' ->
  nozzle_at ix s = Some n ->
  exists n', nozzle_at ix s' = Some n' /\ nozzle_step e n n'.
Proof.
  unfold nozzle_at. intros Hstep Hix. destruct e as [t nid c | h]; simpl in Hstep.
  - unfold post in Hstep.
    destruct (_ && _); [|done]. simpl in Hstep. injection Hstep as <-.
    unfold post_command. simpl.
    destruct (find_nozzle nid (nozzles s)) as [[ix0 n0]|] eqn:Hfind; simpl.
    + apply find_nozzle_Some in Hfind as [H0 <-].
      apply (run_command_nozzle_at c ix0 n0 (set_now t s) t ix n); done.
    + eauto.
  - unfold fire in Hstep.
    destruct (list_find _ _) as [[k tm]|] eqn:Hfind; [|done].
    destruct (forallb _ _); [|done]. injection Hstep as <-.
    apply list_find_Some in Hfind as (_ & Hh & _). subst h.
    unfold run_callback. destruct (callback tm) as [ix0|ix0|ix0].
    + apply promote_nozzle_at. done.
    + apply tick_nozzle_at. done.
    + apply reset_nozzle_at. done.
Qed.

(** Updating a record in place keeps the array's ids, in order. *)
Lemma alter_ids (f : Nozzle -> Nozzle) (ix : nat) (l : list Nozzle) :
  (forall n, id (f n) = id n) ->
  map id (alter f ix l) = map id l.
Proof.
  intros Hf. revert ix.
  induction l as [|n l IH]; intros [|ix]; simpl; [done | done | |].
  - by rewrite Hf.
  - f_equal. apply IH.
Qed.

Ltac ids_of_updates :=
  simpl; rewrite ?alter_ids by (intros []; reflexivity); reflexivity.

Lemma run_command_ids command ix n s :
  map id (nozzles (run_command command ix n s)) = map id (nozzles s).
Proof. unfold run_command. repeat case_decide; ids_of_updates. Qed.

Lemma promote_ids ix s :
  map id (nozzles (promote ix s)) = map id (nozzles s).
Proof.
  unfold promote. destruct (nozzles s !! ix); [|done].
  case_decide; ids_of_updates.
Qed.

Lemma tick_ids h ix s :
  map id (nozzles (tick h ix s)) = map id (nozzles s).
Proof.
  unfold tick. destruct (nozzles s !! ix) as [n|]; [|done].
  case_decide; [done|].
  destruct (currentFueling n); [|done]. cbv zeta.
  destruct (geb _ _); ids_of_updates.
Qed.

Lemma reset_ids ix s :
  map id (nozzles (reset ix s)) = map id (nozzles s).
Proof. unfold reset. ids_of_updates. Qed.

Lemma step_ids s e s' :
  step s e = Some s' -> map id (nozzles s') = map id (nozzles s).
Proof.
  intros Hstep. destruct e as [t nid c | h]; simpl in Hstep.
  - unfold post in Hstep. destruct (_ && _); [|done].
    simpl in Hstep. injection Hstep as <-.
    unfold post_command. simpl.
    destruct (find_nozzle nid (nozzles s)) as [[ix n]|]; simpl; [|done].
    apply (run_command_ids c ix n (set_now t s)).
  - unfold fire in Hstep.
    destruct (list_find _ _) as [[k tm]|]; [|done].
    destruct (forallb _ _); [|done]. injection Hstep as <-.
    unfold run_callback. destruct (callback tm).
    + by rewrite promote_ids.
    + by rewrite tick_ids.
    + by rewrite reset_ids.
Qed.

(** ** Invariants of the event loop *)

Lemma run_app s evs1 evs2 :
  run s (evs1 ++ evs2)%list = run s evs1 ≫= fun s1 => run s1 evs2.
Proof.
  revert s. induction evs1 as [|e evs1 IH]; intros s; simpl; [done|].
  destruct (step s e); simpl; auto.
Qed.

Lemma run_invariant (I : State -> Prop) :
  (forall s e s', I s -> step s e = Some s' -> I s') ->
  forall evs s s', I s -> run s evs = Some s' -> I s'.
Proof.
  intros Hstep evs. induction evs as [|e evs IH]; intros s s' Hs Hrun.
  - simpl in Hrun. by injection Hrun as <-.
  - simpl in Hrun. destruct (step s e) as [s1|] eqn:He; [|done].
    eapply IH; [|done]. eauto.
Qed.

Lemma reachable_invariant (I : State -> Prop) :
  I initial_state ->
  (forall s e s', I s -> step s e = Some s' -> I s') ->
  forall s, reachable s -> I s.
Proof.
  intros H0 Hstep s [evs Hrun]. eapply run_invariant; eauto.
Qed.

Lemma reachable_step s e s' :
  reachable s -> step s e = Some s' -> reachable s'.
Proof.
  intros [evs Hrun] He. exists (evs ++ [e])%list.
  rewrite run_app, Hrun. simpl. by rewrite He.
Qed.

Lemma run_ids evs s s' :
  run s evs = Some s' -> map id (nozzles s') = map id (nozzles s).
Proof.
  apply (run_invariant (fun x => map id (nozzles x) = map id (nozzles s)));
    [|done].
  intros s1 e s2 H1 He. by rewrite (step_ids _ _ _ He).
Qed.

(** A record seen after an event is the image of the record that was at
    the same index before it. *)
Lemma step_nozzle_back s e s' ix n' :
  step s e = Some s' ->
  nozzle_at ix s' = Some n' ->
  exists n, nozzle_at ix s = Some n /\ nozzle_step e n n'.
Proof.
  intros He Hix'. unfold nozzle_at in *.
  assert (Hlen : length (nozzles s) = length (nozzles s')).
  { rewrite <- (length_map id (nozzles s)), <- (length_map id (nozzles s')).
    by rewrite (step_ids _ _ _ He). }
  destruct (nozzles s !! ix) as [n|] eqn:Hix.
  - exists n. split; [done|].
    destruct (step_nozzle_at s e s' ix n He Hix) as (n2 & H2 & Hns).
    unfold nozzle_at in H2. rewrite Hix' in H2. by injection H2 as <-.
  - apply lookup_ge_None in Hix. apply lookup_lt_Some in Hix'. lia.
Qed.

(** A property of single records that holds at start-up and is kept by
    every transition holds of every record of every reachable state. *)
Lemma nozzle_invariant (P : Nozzle -> Prop) :
  (forall n, n ∈ initial_nozzles -> P n) ->
  (forall e n n', P n -> nozzle_step e n n' -> P n') ->
  forall s, reachable s ->
  forall ix n, nozzle_at ix s = Some n -> P n.
Proof.
  intros Hinit Hkeep.
  apply (reachable_invariant
           (fun s => forall ix n, nozzle_at ix s = Some n -> P n)).
  - intros ix n Hix. apply Hinit. by eapply list_elem_of_lookup_2.
  - intros s e s' IH He ix n' Hix'.
    destruct (step_nozzle_back s e s' ix n' He Hix') as (n & Hix & Hns).
    eauto.
Qed.

(** ** Properties of the nozzle collection *)

(** C10: at start-up the collection holds exactly 48 records whose ids
    are the pairwise distinct strings "01" to "48" in that order, each
    Free with no fueling record; no event (command or timer) changes an
    id, adds, removes or reorders a record, so every reachable state has
    the same ids in the same order. *)
Theorem C10_collection_fixed :
  length initial_nozzles = 48%nat /\
  map id initial_nozzles = two_digit_ids /\
  NoDup two_digit_ids /\
  Forall (fun n => status n = Free /\ currentFueling n = None)
         initial_nozzles /\
  (forall s e s', step s e = Some s' ->
                  map id (nozzles s') = map id (nozzles s)) /\
  (forall s, reachable s -> map id (nozzles s) = two_digit_ids).
Proof.
  split; [reflexivity|]. split; [reflexivity|].
  split; [apply (bool_decide_unpack _); vm_compute; exact I|].
  split.
  - unfold initial_nozzles. apply Forall_forall. intros n Hn.
    apply list_elem_of_In, in_map_iff in Hn as (i & <- & _). done.
  - split; [apply step_ids|].
    intros s [evs Hrun]. by rewrite (run_ids _ _ _ Hrun).
Qed.

Lemma C10_collection_fixed_witness :
  map id (nozzles (update_nozzle 4 (set_status Blocked) initial_state))
  = two_digit_ids.
Proof.
  apply (proj2 (proj2 (proj2 (proj2 (proj2 C10_collection_fixed))))).
  exists [cmd 0 "05" "BLOCK"]. vm_compute. reflexivity.
Defined.

Lemma reachable_ids s :
  reachable s -> map id (nozzles s) = two_digit_ids.
Proof. intros [evs Hrun]. by rewrite (run_ids _ _ _ Hrun). Qed.

(** C9: the Snapshot Reader has no failing path: in every reachable
    state it answers 200 with the whole array as it is in memory at that
    instant, 48 records in the order of their ids "01" to "48". *)
Theorem C9_snapshot_total (s : State) :
  reachable s ->
  get_status s = Json 200 (NozzleList (nozzles s)) /\
  length (nozzles s) = 48%nat /\
  map id (nozzles s) = two_digit_ids.
Proof.
  intros Hs. split; [reflexivity|].
  pose proof (reachable_ids s Hs) as Hids. split; [|done].
  rewrite <- (length_map id), Hids. reflexivity.
Qed.

Lemma C9_snapshot_total_witness :
  get_status initial_state = Json 200 (NozzleList initial_nozzles) /\
  length initial_nozzles = 48%nat /\
  map id initial_nozzles = two_digit_ids.
Proof. apply (C9_snapshot_total initial_state). by exists []. Defined.

(** ** Properties of the Command Dispatcher *)

(** C5: when [nozzleId] matches no record, whatever the command, the
    reply is 404 "Nozzle not found" and the state is returned as it was:
    same nozzles, same pending timers. That is the case of the id "99",
    and of any value that is not a string, in every reachable state. *)
Theorem C5_unknown_nozzle_not_found :
  (forall s nozzleId command,
     (forall n, n ∈ nozzles s -> JsString (id n) <> nozzleId) ->
     post_command nozzleId command s
       = (s, Json 404 (Error "Nozzle not found"))) /\
  (forall s command,
     reachable s ->
     post_command (JsString "99") command s
       = (s, Json 404 (Error "Nozzle not found"))) /\
  (forall s command,
     post_command JsOther command s
       = (s, Json 404 (Error "Nozzle not found"))).
Proof.
  assert (Hgen : forall s nozzleId command,
             (forall n, n ∈ nozzles s -> JsString (id n) <> nozzleId) ->
             post_command nozzleId command s
               = (s, Json 404 (Error "Nozzle not found"))).
  { intros s nozzleId command Hnone. apply find_nozzle_None in Hnone.
    unfold post_command. by rewrite Hnone. }
  split; [exact Hgen|]. split.
  - intros s command Hs. apply Hgen. intros n Hn [= Hid].
    assert (Hin : id n ∈ map id (nozzles s))
      by (apply list_elem_of_In, in_map, list_elem_of_In, Hn).
    rewrite (reachable_ids s Hs), Hid in Hin.
    revert Hin. apply (bool_decide_unpack _). vm_compute. exact I.
  - intros s command. apply Hgen. discriminate.
Qed.

Lemma C5_unknown_nozzle_not_found_witness :
  post_command (JsString "99") (JsString "AUTHORIZE")
               (state_after (start_fueling "05"))
  = (state_after (start_fueling "05"), Json 404 (Error "Nozzle not found")).
Proof.
  apply (proj1 (proj2 C5_unknown_nozzle_not_found)).
  exists (start_fueling "05"). vm_compute. reflexivity.
Defined.

Lemma post_command_found s nozzleId command ix n :
  find_nozzle nozzleId (nozzles s) = Some (ix, n) ->
  post_command nozzleId command s =
    (run_command command ix n s,
     Json 200 (Success (default n (nozzles (run_command command ix n s) !! ix)))).
Proof. intros Hfind. unfold post_command. by rewrite Hfind. Qed.

Lemma update_nozzle_at ix f s n :
  nozzle_at ix s = Some n ->
  nozzle_at ix (update_nozzle ix f s) = Some (f n).
Proof.
  unfold nozzle_at. intros Hix. simpl.
  by rewrite list_lookup_alter_eq, Hix.
Qed.

Lemma update_nozzle_at_ne ix j f s :
  j <> ix -> nozzle_at j (update_nozzle ix f s) = nozzle_at j s.
Proof.
  unfold nozzle_at. intros Hne. simpl. by rewrite list_lookup_alter_ne.
Qed.

(** C4: [AUTHORIZE] on an existing nozzle moves it to Ready (and
    schedules the promotion timer) exactly when its status is Waiting or
    Blocked; in any other status the state is returned untouched. Either
    way the reply is 200 with the nozzle record as it then is. *)
Theorem C4_authorize_only_from_waiting_or_blocked
    (s : State) (nozzleId : JsValue) (ix : nat) (n : Nozzle) :
  find_nozzle nozzleId (nozzles s) = Some (ix, n) ->
  (status n = Waiting \/ status n = Blocked ->
     exists s',
       post_command nozzleId (JsString "AUTHORIZE") s
         = (s', Json 200 (Success (set_status Ready n))) /\
       nozzle_at ix s' = Some (set_status Ready n) /\
       status (set_status Ready n) = Ready /\
       currentFueling (set_status Ready n) = currentFueling n /\
       (forall j, j <> ix -> nozzle_at j s' = nozzle_at j s) /\
       timers s' = (timers s ++
                    [mkTimer (next_handle s) (now s + 2000) (Promote ix)])%list)
  /\
  (~ (status n = Waiting \/ status n = Blocked) ->
     post_command nozzleId (JsString "AUTHORIZE") s
       = (s, Json 200 (Success n))).
Proof.
  intros Hfind. rewrite (post_command_found _ _ _ _ _ Hfind).
  apply find_nozzle_Some in Hfind as [Hix _].
  unfold run_command. rewrite decide_True by done. split; intros Hst.
  - rewrite decide_True by done.
    exists (setTimer 2000 (Promote ix) (update_nozzle ix (set_status Ready) s)).
    split; [|split; [|split; [|split; [|split]]]];
      [| | reflexivity | reflexivity | | reflexivity].
    + simpl. by rewrite list_lookup_alter_eq, Hix.
    + unfold nozzle_at. simpl. by rewrite list_lookup_alter_eq, Hix.
    + intros j Hj. unfold nozzle_at. simpl. by rewrite list_lookup_alter_ne.
  - rewrite decide_False by done. by rewrite Hix.
Qed.

Lemma C4_authorize_only_from_waiting_or_blocked_witness :
  post_command (JsString "05") (JsString "AUTHORIZE") initial_state
  = (initial_state, Json 200 (Success (mkNozzle "05" Free None))).
Proof.
  apply (proj2 (C4_authorize_only_from_waiting_or_blocked
                  initial_state (JsString "05") 4 (mkNozzle "05" Free None)
                  eq_refl)).
  simpl. intros [H|H]; discriminate H.
Defined.

(** C3, as the code has it: [FREE] on an existing nozzle, from any
    state, sets its status to Free and leaves its fueling record as it
    was (null only if it was null already); no timer is touched and the
    reply is 200 with the record. *)
Theorem C3_free_sets_status_only
    (s : State) (nozzleId : JsValue) (ix : nat) (n : Nozzle) :
  find_nozzle nozzleId (nozzles s) = Some (ix, n) ->
  exists s',
    post_command nozzleId (JsString "FREE") s
      = (s', Json 200 (Success (set_status Free n))) /\
    nozzle_at ix s' = Some (set_status Free n) /\
    status (set_status Free n) = Free /\
    currentFueling (set_status Free n) = currentFueling n /\
    (forall j, j <> ix -> nozzle_at j s' = nozzle_at j s) /\
    timers s' = timers s.
Proof.
  intros Hfind. rewrite (post_command_found _ _ _ _ _ Hfind).
  apply find_nozzle_Some in Hfind as [Hix _].
  unfold run_command.
  rewrite decide_False by discriminate.
  rewrite decide_False by discriminate.
  rewrite decide_True by done.
  exists (update_nozzle ix (set_status Free) s). split; [|split; [|split; [|split; [|split]]]];
    [| | reflexivity | reflexivity | | reflexivity].
  - simpl. by rewrite list_lookup_alter_eq, Hix.
  - by apply update_nozzle_at.
  - intros j Hj. by apply update_nozzle_at_ne.
Qed.

Lemma C3_free_sets_status_only_witness :
  exists s',
    post_command (JsString "05") (JsString "FREE") (state_after first_tick)
      = (s', Json 200
               (Success (set_status Free
                           (mkNozzle "05" Authorized
                                     (Some (fueling_after 1)))))) /\
    nozzle_at 4 s'
      = Some (set_status Free
                (mkNozzle "05" Authorized (Some (fueling_after 1)))) /\
    status (set_status Free
              (mkNozzle "05" Authorized (Some (fueling_after 1)))) = Free /\
    currentFueling
      (set_status Free (mkNozzle "05" Authorized (Some (fueling_after 1))))
      = currentFueling (mkNozzle "05" Authorized (Some (fueling_after 1))) /\
    (forall j, j <> 4%nat ->
               nozzle_at j s' = nozzle_at j (state_after first_tick)) /\
    timers s' = timers (state_after first_tick).
Proof.
  apply (C3_free_sets_status_only
           (state_after first_tick) (JsString "05") 4
           (mkNozzle "05" Authorized (Some (fueling_after 1)))).
  vm_compute. reflexivity.
Defined.

(** The state after the first tick is in the middle of a fueling, with
    the interval pending. *)
Example first_tick_state :
  nozzle_at 4 (state_after first_tick)
    = Some (mkNozzle "05" Authorized (Some (fueling_after 1))) /\
  timers (state_after first_tick) = [mkTimer 1 3000 (Tick 4)].
Proof. split; vm_compute; reflexivity. Qed.

(** C3 as stated fails: [FREE] during a fueling (nozzle "05", after the
    first tick) leaves the nozzle Free with its fueling record still
    there. *)
Lemma C3_free_mid_fueling_keeps_record :
  run initial_state first_tick = Some (state_after first_tick) /\
  nozzle_at 4 (state_after first_tick)
    = Some (mkNozzle "05" Authorized (Some (fueling_after 1))) /\
  snd (post_command (JsString "05") (JsString "FREE") (state_after first_tick))
    = Json 200 (Success (mkNozzle "05" Free (Some (fueling_after 1)))) /\
  nozzle_at 4 (fst (post_command (JsString "05") (JsString "FREE")
                                 (state_after first_tick)))
    = Some (mkNozzle "05" Free (Some (fueling_after 1))) /\
  Some (fueling_after 1) <> None.
Proof.
  split; [vm_compute; reflexivity|].
  split; [vm_compute; reflexivity|].
  split; [vm_compute; reflexivity|].
  split; [vm_compute; reflexivity|discriminate].
Qed.

(** ** Fueling record and status *)





(** The ordinary life cycle (block, authorize, promotion, 40 ticks,
    reset) cuts no fueling short. *)
Example uninterrupted_lifecycle :
  run_uninterrupted 4 initial_state
                    (complete_fueling "05" ++ [Fire 2])%list
  = Some (state_after (complete_fueling "05" ++ [Fire 2])%list) /\
  nozzle_at 4 (state_after (complete_fueling "05"))
  = Some (mkNozzle "05" Completed (Some (fueling_after 40))) /\
  nozzle_at 4 (state_after (complete_fueling "05" ++ [Fire 2])%list)
  = Some (mkNozzle "05" Free None).
Proof.
  split; [vm_compute; reflexivity|].
  split; vm_compute; reflexivity.
Qed.


(** ** Timer callbacks and stale timers *)

(** The promotion callback does nothing unless the nozzle is Ready. *)
Lemma promote_guarded ix s n :
  nozzle_at ix s = Some n -> status n <> Ready -> promote ix s = s.
Proof.
  unfold nozzle_at, promote. intros -> Hst. by rewrite decide_False.
Qed.

(** The tick callback only cancels its interval unless the nozzle is
    Authorized. *)
Lemma tick_guarded h ix s n :
  nozzle_at ix s = Some n -> status n <> Authorized ->
  tick h ix s = clearTimer h s.
Proof.
  unfold nozzle_at, tick. intros -> Hst. by rewrite decide_True.
Qed.

(** The reset callback has no such guard. *)
Lemma reset_unguarded ix s n :
  nozzle_at ix s = Some n ->
  nozzle_at ix (reset ix s) = Some (mkNozzle (id n) Free None).
Proof. intros Hix. unfold reset. by rewrite (update_nozzle_at _ _ _ _ Hix). Qed.

(** C2 fails on the reset timer: nozzle "05" completes a fueling at
    22000 ms (reset timer 2 pending, due at 25000) and is blocked at
    23000 ms; when the reset timer fires the nozzle is Blocked, not
    Completed, and the callback still sets it Free and clears its
    fueling record. *)
Theorem C2_reset_timer_overrides_block :
  run initial_state (complete_fueling "05" ++ [cmd 23000 "05" "BLOCK"])%list
    = Some (state_after
              (complete_fueling "05" ++ [cmd 23000 "05" "BLOCK"])%list) /\
  nozzle_at 4 (state_after
                 (complete_fueling "05" ++ [cmd 23000 "05" "BLOCK"])%list)
    = Some (mkNozzle "05" Blocked (Some (fueling_after 40))) /\
  timers (state_after
            (complete_fueling "05" ++ [cmd 23000 "05" "BLOCK"])%list)
    = [mkTimer 2 25000 (Reset 4)] /\
  nozzle_at 4 <$>
    step (state_after
            (complete_fueling "05" ++ [cmd 23000 "05" "BLOCK"])%list) (Fire 2)
    = Some (Some (mkNozzle "05" Free None)).
Proof.
  split; [vm_compute; reflexivity|].
  split; [vm_compute; reflexivity|].
  split; vm_compute; reflexivity.
Qed.

(** C6 as stated fails in its second half: nozzle "12" is Ready with
    promotion timer 0 pending, is blocked at 100 ms (at once Blocked)
    and authorized again at 1900 ms; timer 0, scheduled before the
    [BLOCK], fires at 2000 ms, finds the status Ready and promotes the
    nozzle to Authorized. *)
Lemma C6_stale_promotion_fires_after_block :
  nozzle_at 11 (state_after [cmd 0 "12" "BLOCK"; cmd 0 "12" "AUTHORIZE"])
    = Some (mkNozzle "12" Ready None) /\
  timers (state_after [cmd 0 "12" "BLOCK"; cmd 0 "12" "AUTHORIZE"])
    = [mkTimer 0 2000 (Promote 11)] /\
  nozzle_at 11 (state_after [cmd 0 "12" "BLOCK"; cmd 0 "12" "AUTHORIZE";
                             cmd 100 "12" "BLOCK"])
    = Some (mkNozzle "12" Blocked None) /\
  run initial_state (block_then_reauthorize ++ [Fire 0])%list
    = Some (state_after (block_then_reauthorize ++ [Fire 0])%list) /\
  now (state_after (block_then_reauthorize ++ [Fire 0])%list) = 2000 /\
  nozzle_at 11 (state_after (block_then_reauthorize ++ [Fire 0])%list)
    = Some (mkNozzle "12" Authorized (Some new_fueling)).
Proof.
  split; [vm_compute; reflexivity|].
  split; [vm_compute; reflexivity|].
  split; [vm_compute; reflexivity|].
  split; [vm_compute; reflexivity|].
  split; vm_compute; reflexivity.
Qed.

(** Promotions that re-authorizing has left pending each begin a new
    episode on the nozzle, and the interval of an earlier episode, which
    tests the status only, goes on ticking on the new record: here
    interval 3 of the fueling blocked at 3100 ms is still alive when the
    third episode completes. *)
Example intervals_of_earlier_episodes_keep_ticking :
  nozzle_at 11 (state_after first_episode)
    = Some (mkNozzle "12" Authorized (Some (fueling_after 2))) /\
  filter (fun t => callback t = Tick 11) (timers (state_after first_episode))
    = [mkTimer 3 3500 (Tick 11)] /\
  nozzle_at 11 (state_after (first_episode ++ [cmd 3100 "12" "BLOCK"])%list)
    = Some (mkNozzle "12" Blocked (Some (fueling_after 2))) /\
  run initial_state (first_episode ++ after_block ++ [Fire 3])%list
    = Some (state_after (first_episode ++ after_block ++ [Fire 3])%list) /\
  run_episode 11 (state_after (first_episode ++ [cmd 3100 "12" "BLOCK"])%list)
              (tl after_block) = None /\
  nozzle_at 11 (state_after (first_episode ++ after_block)%list)
    = Some (mkNozzle "12" Authorized (Some (fueling_after 39))) /\
  nozzle_at 11 (state_after (first_episode ++ after_block ++ [Fire 3])%list)
    = Some (mkNozzle "12" Completed (Some (fueling_after 40))).
Proof.
  split; [vm_compute; reflexivity|].
  split; [vm_compute; reflexivity|].
  split; [vm_compute; reflexivity|].
  split; [vm_compute; reflexivity|].
  split; [vm_compute; reflexivity|].
  split; vm_compute; reflexivity.
Qed.

(** After [BLOCK], no event that is not a new promotion of the nozzle
    makes it Authorized or Completed. *)
Lemma blocked_episode_is_over ix evs :
  forall s s' n,
    nozzle_at ix s = Some n ->
    status n = Blocked \/ status n = Free \/ status n = Ready ->
    run_episode ix s evs = Some s' ->
    exists n', nozzle_at ix s' = Some n' /\
               (status n' = Blocked \/ status n' = Free \/ status n' = Ready).
Proof.
  induction evs as [|e evs IH]; intros s s' n Hix Hst Hrun.
  - simpl in Hrun. injection Hrun as <-. eauto.
  - simpl in Hrun. destruct (step s e) as [s1|] eqn:He; [|done].
    destruct (starts_episode ix s s1) eqn:Hstart; [done|].
    destruct (step_nozzle_at s e s1 ix n He Hix) as (n1 & H1 & Hns).
    unfold starts_episode in Hstart. rewrite Hix, H1 in Hstart.
    apply bool_decide_eq_false in Hstart.
    eapply (IH s1 s' n1); [done| |done].
    inversion Hns; subst; simpl in *; auto;
      try (exfalso; apply Hstart; by split);
      destruct Hst as [?|[?|?]]; congruence.
Qed.

(** After [BLOCK], no event other than an [AUTHORIZE] for the nozzle
    takes it out of Blocked and Free. *)
Lemma blocked_until_authorized ix nid evs :
  forall s s' n,
    nozzle_at ix s = Some n ->
    id n = nid ->
    status n = Blocked \/ status n = Free ->
    forallb (fun e => negb (is_authorize_for nid e)) evs = true ->
    run s evs = Some s' ->
    exists n', nozzle_at ix s' = Some n' /\
               (status n' = Blocked \/ status n' = Free).
Proof.
  induction evs as [|e evs IH]; intros s s' n Hix Hid Hst Hno Hrun.
  - simpl in Hrun. injection Hrun as <-. eauto.
  - simpl in Hrun. destruct (step s e) as [s1|] eqn:He; [|done].
    simpl in Hno. apply andb_prop in Hno as [Hne Hno].
    destruct (step_nozzle_at s e s1 ix n He Hix) as (n1 & H1 & Hns).
    assert (id n1 = nid /\ (status n1 = Blocked \/ status n1 = Free))
      as [Hid1 Hst1].
    { inversion Hns; subst; simpl in *; auto;
        try (destruct Hst; congruence).
      rewrite bool_decide_eq_true_2 in Hne by (split; congruence).
      discriminate. }
    eapply (IH s1 s' n1); eauto.
Qed.

(** C6, as the code has it. [BLOCK] puts the nozzle in Blocked at once,
    whatever its state (Ready, or Authorized in the middle of a
    fueling). From then on
    (1) the nozzle never reaches Completed from that episode: until a
    promotion begins a new episode on it, it is never Authorized and
    never Completed, whatever commands are sent, [AUTHORIZE] included;
    (2) as long as no [AUTHORIZE] is sent for that nozzle, a promotion
    that was scheduled before the [BLOCK] does nothing when it fires:
    the nozzle stays Blocked or becomes Free. (If [AUTHORIZE] is sent
    again, the older promotion timer finds the nozzle Ready and does
    promote it.) *)
Theorem C6_block_ends_episode
    (s : State) (t : Z) (nid : string) (ix : nat) (n : Nozzle) :
  find_nozzle (JsString nid) (nozzles s) = Some (ix, n) ->
  is_Some (post t (JsString nid) (JsString "BLOCK") s) ->
  exists s1 r,
    post t (JsString nid) (JsString "BLOCK") s = Some (s1, r) /\
    nozzle_at ix s1 = Some (set_status Blocked n) /\
    (forall evs s',
       run_episode ix s1 evs = Some s' ->
       exists n', nozzle_at ix s' = Some n' /\
                  status n' <> Completed /\ status n' <> Authorized) /\
    (forall evs s',
       forallb (fun e => negb (is_authorize_for nid e)) evs = true ->
       run s1 evs = Some s' ->
       exists n', nozzle_at ix s' = Some n' /\
                  (status n' = Blocked \/ status n' = Free)).
Proof.
  intros Hfind [[s1 r] Hpost]. exists s1, r. split; [done|].
  unfold post in Hpost. destruct (_ && _); [|done].
  injection Hpost as Hpost.
  assert (Hfind' : find_nozzle (JsString nid) (nozzles (set_now t s))
                   = Some (ix, n)) by done.
  rewrite (post_command_found _ _ _ _ _ Hfind') in Hpost.
  injection Hpost as <- _.
  apply find_nozzle_Some in Hfind as [Hix Hid]. injection Hid as Hid.
  assert (H1 : nozzle_at ix (run_command (JsString "BLOCK") ix n (set_now t s))
               = Some (set_status Blocked n)).
  { unfold run_command.
    rewrite decide_False by discriminate. rewrite decide_True by done.
    by apply update_nozzle_at. }
  split; [done|]. split.
  - intros evs s' Hrun.
    destruct (blocked_episode_is_over ix evs _ s' _ H1 (or_introl eq_refl) Hrun)
      as (n' & Hn' & Hst').
    exists n'. split; [done|].
    split; intros Hc; rewrite Hc in Hst';
      destruct Hst' as [?|[?|?]]; discriminate.
  - intros evs s' Hno Hrun.
    by apply (blocked_until_authorized ix nid evs _ s' _ H1 Hid
                (or_introl eq_refl)).
Qed.

Lemma C6_block_ends_episode_witness :
  (exists s1 r,
     post 2600 (JsString "05") (JsString "BLOCK") (state_after first_tick)
       = Some (s1, r) /\
     nozzle_at 4 s1
       = Some (set_status Blocked
                 (mkNozzle "05" Authorized (Some (fueling_after 1)))) /\
     (forall evs s',
        run_episode 4 s1 evs = Some s' ->
        exists n', nozzle_at 4 s' = Some n' /\
                   status n' <> Completed /\ status n' <> Authorized) /\
     (forall evs s',
        forallb (fun e => negb (is_authorize_for "05" e)) evs = true ->
        run s1 evs = Some s' ->
        exists n', nozzle_at 4 s' = Some n' /\
                   (status n' = Blocked \/ status n' = Free)))
  /\
  (exists s1 r,
     post 100 (JsString "12") (JsString "BLOCK")
          (state_after [cmd 0 "12" "BLOCK"; cmd 0 "12" "AUTHORIZE"])
       = Some (s1, r) /\
     nozzle_at 11 s1 = Some (set_status Blocked (mkNozzle "12" Ready None)) /\
     (forall evs s',
        run_episode 11 s1 evs = Some s' ->
        exists n', nozzle_at 11 s' = Some n' /\
                   status n' <> Completed /\ status n' <> Authorized) /\
     (forall evs s',
        forallb (fun e => negb (is_authorize_for "12" e)) evs = true ->
        run s1 evs = Some s' ->
        exists n', nozzle_at 11 s' = Some n' /\
                   (status n' = Blocked \/ status n' = Free))).
Proof.
  split.
  - apply (C6_block_ends_episode (state_after first_tick)
             2600 "05" 4
             (mkNozzle "05" Authorized (Some (fueling_after 1)))).
    + vm_compute. reflexivity.
    + vm_compute. eexists. reflexivity.
  - apply (C6_block_ends_episode
             (state_after [cmd 0 "12" "BLOCK"; cmd 0 "12" "AUTHORIZE"])
             100 "12" 11 (mkNozzle "12" Ready None)).
    + vm_compute. reflexivity.
    + vm_compute. eexists. reflexivity.
Defined.

(** ** The fueling record *)

(** The records a nozzle can hold: the one installed at promotion, ticked
    at most 40 times, and fewer than 40 while the nozzle is Authorized. *)
Lemma fueling_table s ix n f :
  reachable s ->
  nozzle_at ix s = Some n ->
  currentFueling n = Some f ->
  exists k, (k <= 40)%nat /\ f = fueling_after k /\
            (status n = Authorized -> (k < 40)%nat).
Proof.
  intros Hs. revert ix n f.
  cut (forall ix n, nozzle_at ix s = Some n ->
         forall f, currentFueling n = Some f ->
         exists k, (k <= 40)%nat /\ f = fueling_after k /\
                   (status n = Authorized -> (k < 40)%nat)); [eauto|].
  apply (nozzle_invariant
           (fun n => forall f, currentFueling n = Some f ->
              exists k, (k <= 40)%nat /\ f = fueling_after k /\
                        (status n = Authorized -> (k < 40)%nat))); [| |done].
  - intros n Hn. apply list_elem_of_In, in_map_iff in Hn as (i & <- & _).
    simpl. discriminate.
  - intros e n n' IH Hns f'.
    inversion Hns; subst; simpl; auto.
    + intros Hf. destruct (IH _ Hf) as (k & Hk & -> & _).
      exists k. repeat split; auto. discriminate.
    + intros Hf. destruct (IH _ Hf) as (k & Hk & -> & _).
      exists k. repeat split; auto. discriminate.
    + intros Hf. destruct (IH _ Hf) as (k & Hk & -> & _).
      exists k. repeat split; auto. discriminate.
    + intros [= <-]. exists 0%nat. repeat split; auto; lia.
    + intros [= <-].
      destruct (IH _ H0) as (k & Hk & -> & Hlt). specialize (Hlt H).
      exists (S k). split; [lia|]. split; [reflexivity|]. intros _.
      destruct (decide (S k = 40%nat)) as [He|]; [|lia].
      change (tick_fueling (fueling_after k)) with (fueling_after (S k)) in H1.
      rewrite He in H1. vm_compute in H1. discriminate.
    + intros [= <-].
      destruct (IH _ H0) as (k & Hk & -> & Hlt). specialize (Hlt H).
      exists (S k). split; [lia|]. split; [reflexivity|]. discriminate.
    + discriminate.
Qed.

Lemma price_iter_tick k f : price (Nat.iter k tick_fueling f) = price f.
Proof. induction k as [|k IH]; [done|]. simpl. exact IH. Qed.

Lemma fueling_after_add j k :
  fueling_after (j + k) = Nat.iter j tick_fueling (fueling_after k).
Proof. unfold fueling_after. by rewrite Nat.iter_add. Qed.

(** Along the 40 ticks the volume never goes down. *)
Lemma fueling_list_nth k :
  (k <= 40)%nat ->
  nth k (map fueling_after (seq 0 41)) new_fueling = fueling_after k.
Proof.
  intros Hk. change new_fueling with (fueling_after 0).
  rewrite map_nth, seq_nth by lia. reflexivity.
Qed.

(** Along the 40 ticks the volume never goes down. *)
Lemma volume_table_monotone j k :
  (j <= k)%nat -> (k <= 40)%nat ->
  leb (volume (fueling_after j)) (volume (fueling_after k)) = true.
Proof.
  intros Hjk Hk.
  assert (Hall : (let l := map fueling_after (seq 0 41) in
                  forallb (fun j' =>
                    forallb (fun k' => leb (volume (nth j' l new_fueling))
                                           (volume (nth k' l new_fueling)))
                            (seq j' (41 - j')))
                    (seq 0 41)) = true) by (vm_compute; reflexivity).
  cbv zeta in Hall. rewrite forallb_forall in Hall.
  specialize (Hall j). rewrite forallb_forall in Hall.
  rewrite <- (fueling_list_nth j), <- (fueling_list_nth k) by lia.
  apply Hall; apply in_seq; lia.
Qed.

(** What an event that does not begin an episode does to the record. *)
Lemma step_within_episode s e s' ix n n' :
  step s e = Some s' ->
  nozzle_at ix s = Some n ->
  nozzle_at ix s' = Some n' ->
  starts_episode ix s s' = false ->
  match currentFueling n, currentFueling n' with
  | Some f, Some f' =>
      f' = f \/ (status n = Authorized /\ f' = tick_fueling f)
  | None, Some _ => False
  | _, None => True
  end.
Proof.
  intros He Hix Hix' Hstart.
  destruct (step_nozzle_at s e s' ix n He Hix) as (n2 & H2 & Hns).
  rewrite Hix' in H2. injection H2 as <-.
  unfold starts_episode in Hstart. rewrite Hix, Hix' in Hstart.
  inversion Hns; subst; simpl in *;
    try match goal with
        | H : currentFueling _ = Some _ |- _ => rewrite H
        end;
    try match goal with
        | |- context [currentFueling ?x] => destruct (currentFueling x)
        end;
    auto.
  all: rewrite bool_decide_eq_true_2 in Hstart by (split; congruence).
  all: discriminate.
Qed.

Lemma fueling_after_inj j k :
  (j <= 40)%nat -> (k <= 40)%nat ->
  fueling_after j = fueling_after k -> j = k.
Proof.
  intros Hj Hk Heq.
  assert (Hall : (let l := map fueling_after (seq 0 41) in
                  forallb (fun j' =>
                    forallb (fun k' =>
                               implb (bool_decide (nth j' l new_fueling
                                                   = nth k' l new_fueling))
                                     (j' =? k')%nat)
                            (seq 0 41))
                    (seq 0 41)) = true) by (vm_compute; reflexivity).
  cbv zeta in Hall. rewrite forallb_forall in Hall.
  specialize (Hall j). rewrite forallb_forall in Hall.
  specialize (Hall (ltac:(apply in_seq; lia)) k (ltac:(apply in_seq; lia))).
  rewrite !fueling_list_nth in Hall by lia.
  rewrite bool_decide_eq_true_2 in Hall by done.
  by apply Nat.eqb_eq.
Qed.

Lemma run_episode_none ix evs :
  forall s s' n n',
    run_episode ix s evs = Some s' ->
    nozzle_at ix s = Some n -> currentFueling n = None ->
    nozzle_at ix s' = Some n' -> currentFueling n' = None.
Proof.
  induction evs as [|e evs IH]; intros s s' n n' Hrun Hix Hf Hix'.
  - simpl in Hrun. injection Hrun as <-. congruence.
  - simpl in Hrun. destruct (step s e) as [s1|] eqn:He; [|done].
    destruct (starts_episode ix s s1) eqn:Hstart; [done|].
    destruct (step_nozzle_at s e s1 ix n He Hix) as (n1 & H1 & _).
    pose proof (step_within_episode s e s1 ix n n1 He Hix H1 Hstart) as Hw.
    rewrite Hf in Hw.
    destruct (currentFueling n1) eqn:Hf1; [done|]. eauto.
Qed.

(** Within an episode the record only moves forward along the table. *)
Lemma run_episode_ticks ix evs :
  forall s s' n n' f f',
    reachable s ->
    run_episode ix s evs = Some s' ->
    nozzle_at ix s = Some n -> currentFueling n = Some f ->
    nozzle_at ix s' = Some n' -> currentFueling n' = Some f' ->
    exists j k, (j + k <= 40)%nat /\
                f = fueling_after k /\ f' = fueling_after (j + k).
Proof.
  induction evs as [|e evs IH]; intros s s' n n' f f' Hs Hrun Hix Hf Hix' Hf'.
  - simpl in Hrun. injection Hrun as <-.
    rewrite Hix in Hix'. injection Hix' as <-.
    rewrite Hf in Hf'. injection Hf' as <-.
    destruct (fueling_table s ix n f Hs Hix Hf) as (k & Hk & -> & _).
    exists 0%nat, k. auto.
  - simpl in Hrun. destruct (step s e) as [s1|] eqn:He; [|done].
    destruct (starts_episode ix s s1) eqn:Hstart; [done|].
    destruct (step_nozzle_at s e s1 ix n He Hix) as (n1 & H1 & _).
    pose proof (step_within_episode s e s1 ix n n1 He Hix H1 Hstart) as Hw.
    rewrite Hf in Hw.
    destruct (currentFueling n1) as [f1|] eqn:Hf1.
    + pose proof (reachable_step s e s1 Hs He) as Hs1.
      destruct (IH s1 s' n1 n' f1 f' Hs1 Hrun H1 Hf1 Hix' Hf')
        as (j & k1 & Hb & E1 & E').
      destruct Hw as [->|[Hst ->]]; [by exists j, k1|].
      destruct (fueling_table s ix n f Hs Hix Hf) as (k & Hk & -> & Hlt).
      specialize (Hlt Hst).
      change (tick_fueling (fueling_after k)) with (fueling_after (S k)) in E1.
      apply fueling_after_inj in E1; [|lia|lia]. subst k1.
      exists (S j), k. split; [lia|]. split; [done|].
      rewrite E'. f_equal. lia.
    + pose proof (run_episode_none ix evs s1 s' n1 n' Hrun H1 Hf1 Hix').
      congruence.
Qed.

(** C8: between two observations of a nozzle with no promotion (start
    of a new episode) in between, the later record is the earlier one
    ticked some number of times: its volume is not smaller and its price
    is the same; every tick adds 0.5 to the volume and keeps the price,
    which is the 5.89 set at promotion. *)
Theorem C8_volume_monotone_price_fixed
    (ix : nat) (s s' : State) (evs : list Event)
    (n n' : Nozzle) (f f' : FuelingData) :
  reachable s ->
  run_episode ix s evs = Some s' ->
  nozzle_at ix s = Some n -> currentFueling n = Some f ->
  nozzle_at ix s' = Some n' -> currentFueling n' = Some f' ->
  leb (volume f) (volume f') = true /\
  price f' = price f /\
  price f = decimal 589 2 /\
  (exists k, f' = Nat.iter k tick_fueling f) /\
  (forall g, volume (tick_fueling g) = add (volume g) (decimal 5 1) /\
             price (tick_fueling g) = price g).
Proof.
  intros Hs Hrun Hix Hf Hix' Hf'.
  destruct (run_episode_ticks ix evs s s' n n' f f' Hs Hrun Hix Hf Hix' Hf')
    as (j & k & Hb & -> & ->).
  split; [apply volume_table_monotone; lia|].
  rewrite fueling_after_add.
  split; [apply price_iter_tick|].
  split; [unfold fueling_after; by rewrite price_iter_tick|].
  split; [by exists j|]. intros g. split; reflexivity.
Qed.

Lemma C8_volume_monotone_price_fixed_witness :
  leb (volume new_fueling) (volume (fueling_after 2)) = true /\
  price (fueling_after 2) = price new_fueling /\
  price new_fueling = decimal 589 2 /\
  (exists k, fueling_after 2 = Nat.iter k tick_fueling new_fueling) /\
  (forall g, volume (tick_fueling g) = add (volume g) (decimal 5 1) /\
             price (tick_fueling g) = price g).
Proof.
  apply (C8_volume_monotone_price_fixed
           4 (state_after (start_fueling "05"))
           (state_after (start_fueling "05" ++ [Fire 1; Fire 1])%list)
           [Fire 1; Fire 1]
           (mkNozzle "05" Authorized (Some new_fueling))
           (mkNozzle "05" Authorized (Some (fueling_after 2)))).
  - exists (start_fueling "05"). vm_compute. reflexivity.
  - vm_compute. reflexivity.
  - vm_compute. reflexivity.
  - reflexivity.
  - vm_compute. reflexivity.
  - reflexivity.
Defined.

(** C7, as the code has it: whenever a nozzle has a fueling record, its
    total is [Number((volume * price).toFixed(2))], the product being the
    double-precision one. Promotion installs the record
    {volume: 0, total: 0, price: 5.89}; after the first tick the volume
    is 0.5 and the total is 2.94, because the double product
    0.5 * 5.89 lies just below 2.945. *)
Theorem C7_total_is_rounded_product :
  (forall s ix n f,
     reachable s -> nozzle_at ix s = Some n -> currentFueling n = Some f ->
     total f = Number (toFixed2 (mul (volume f) (price f)))) /\
  (forall s e s' ix n n',
     step s e = Some s' ->
     nozzle_at ix s = Some n -> nozzle_at ix s' = Some n' ->
     status n = Ready -> status n' = Authorized ->
     currentFueling n' = Some (mkFueling (of_Z 0) (of_Z 0) (decimal 589 2))) /\
  tick_fueling (mkFueling (of_Z 0) (of_Z 0) (decimal 589 2))
    = mkFueling (decimal 5 1) (decimal 294 2) (decimal 589 2).
Proof.
  split; [|split; [|vm_compute; reflexivity]].
  - intros s ix n f Hs. revert ix n f.
    cut (forall ix n, nozzle_at ix s = Some n ->
           forall f, currentFueling n = Some f ->
           total f = Number (toFixed2 (mul (volume f) (price f)))); [eauto|].
    apply (nozzle_invariant
             (fun n => forall f, currentFueling n = Some f ->
                total f = Number (toFixed2 (mul (volume f) (price f)))));
      [| |done].
    + intros n Hn. apply list_elem_of_In, in_map_iff in Hn as (i & <- & _).
      simpl. discriminate.
    + intros e n n' IH Hns f'.
      inversion Hns; subst; simpl; auto; intros [= <-].
      * vm_compute. reflexivity.
      * reflexivity.
      * reflexivity.
  - intros s e s' ix n n' He Hix Hix' Hst Hst'.
    destruct (step_nozzle_at s e s' ix n He Hix) as (n2 & H2 & Hns).
    rewrite Hix' in H2. injection H2 as <-.
    inversion Hns; subst; simpl in *; try congruence. reflexivity.
Qed.

Lemma C7_total_is_rounded_product_witness :
  total (fueling_after 1)
  = Number (toFixed2 (mul (volume (fueling_after 1)) (price (fueling_after 1)))).
Proof.
  apply (proj1 C7_total_is_rounded_product
           (state_after first_tick) 4%nat
           (mkNozzle "05" Authorized (Some (fueling_after 1)))).
  - exists first_tick. vm_compute. reflexivity.
  - vm_compute. reflexivity.
  - reflexivity.
Defined.

(** C7 as stated fails at its own example: after the first tick of
    nozzle "05" the volume is 0.5 and the price 5.89, and the total is
    the double 2.94, which is not the double 2.95. The double product is
    6631550451303055 * 2^-51, strictly less than 2.945. *)
Lemma C7_first_tick_total_is_not_295 :
  run initial_state first_tick = Some (state_after first_tick) /\
  (currentFueling <$> nozzle_at 4 (state_after first_tick))
    = Some (Some (mkFueling (decimal 5 1) (decimal 294 2) (decimal 589 2))) /\
  mul (decimal 5 1) (decimal 589 2)
    = S754_finite false 6631550451303055 (-51) /\
  6631550451303055 * 1000 < 2945 * 2 ^ 51 /\
  decimal 294 2 <> decimal 295 2.
Proof.
  split; [vm_compute; reflexivity|].
  split; [vm_compute; reflexivity|].
  split; [vm_compute; reflexivity|].
  split; [vm_compute; reflexivity|].
  vm_compute. discriminate.
Qed.

(** ** Further properties of the server *)

Lemma alter_fixed {X} (f : X -> X) (l : list X) (i : nat) (x : X) :
  l !! i = Some x -> f x = x -> alter f i l = l.
Proof.
  revert i. induction l as [|y l IH]; intros [|i] Hi Hf; simpl in *;
    try done.
  - injection Hi as ->. by rewrite Hf.
  - f_equal. by apply IH.
Qed.

Lemma find_nozzle_alter nozzleId l ix n (f : Nozzle -> Nozzle) :
  find_nozzle nozzleId l = Some (ix, n) ->
  id (f n) = id n ->
  find_nozzle nozzleId (alter f ix l) = Some (ix, f n).
Proof.
  unfold find_nozzle. intros Hfind Hid.
  apply list_find_Some in Hfind as (Hix & HP & Hbefore).
  apply list_find_Some. split; [|split].
  - by rewrite list_lookup_alter_eq, Hix.
  - by rewrite Hid.
  - intros j y Hj Hlt. rewrite list_lookup_alter_ne in Hj by lia. eauto.
Qed.

(** X1: the only statuses a nozzle ever has are Free, Ready, Authorized,
    Completed and Blocked; Waiting, Failed and Unconfigured are never
    assigned. *)
Theorem X1_reachable_statuses (s : State) (ix : nat) (n : Nozzle) :
  reachable s ->
  nozzle_at ix s = Some n ->
  status n = Free \/ status n = Ready \/ status n = Authorized \/
  status n = Completed \/ status n = Blocked.
Proof.
  intros Hs. revert ix n.
  apply (nozzle_invariant
           (fun n => status n = Free \/ status n = Ready \/
                     status n = Authorized \/ status n = Completed \/
                     status n = Blocked)); [| |done].
  - intros n Hn. apply list_elem_of_In, in_map_iff in Hn as (i & <- & _).
    by left.
  - intros e n n' IH Hns. inversion Hns; subst; simpl; tauto.
Qed.

Lemma X1_reachable_statuses_witness :
  status (mkNozzle "05" Authorized (Some new_fueling)) = Free \/
  status (mkNozzle "05" Authorized (Some new_fueling)) = Ready \/
  status (mkNozzle "05" Authorized (Some new_fueling)) = Authorized \/
  status (mkNozzle "05" Authorized (Some new_fueling)) = Completed \/
  status (mkNozzle "05" Authorized (Some new_fueling)) = Blocked.
Proof.
  apply (X1_reachable_statuses (state_after (start_fueling "05")) 4).
  - exists (start_fueling "05"). vm_compute. reflexivity.
  - vm_compute. reflexivity.
Defined.

Lemma run_command_other command ix n s j :
  j <> ix -> nozzles (run_command command ix n s) !! j = nozzles s !! j.
Proof.
  intros Hne. unfold run_command.
  repeat case_decide; simpl; rewrite ?list_lookup_alter_ne by done; done.
Qed.

Lemma promote_other ix s j :
  j <> ix -> nozzles (promote ix s) !! j = nozzles s !! j.
Proof.
  intros Hne. unfold promote. destruct (nozzles s !! ix); [|done].
  case_decide; simpl; rewrite ?list_lookup_alter_ne by done; done.
Qed.

Lemma tick_other h ix s j :
  j <> ix -> nozzles (tick h ix s) !! j = nozzles s !! j.
Proof.
  intros Hne. unfold tick. destruct (nozzles s !! ix) as [n|]; [|done].
  case_decide; [done|]. destruct (currentFueling n); [|done]. cbv zeta.
  destruct (geb _ _); simpl; rewrite ?list_lookup_alter_ne by done; done.
Qed.

Lemma reset_other ix s j :
  j <> ix -> nozzles (reset ix s) !! j = nozzles s !! j.
Proof.
  intros Hne. unfold reset. simpl. by rewrite list_lookup_alter_ne.
Qed.

(** X2: an event assigns to one nozzle object only. A request changes
    no record but the one [find] returned, a timer no record but the one
    its callback closes over: every other nozzle is left exactly as it
    was. *)
Theorem X2_event_changes_only_its_target
    (s s' : State) (e : Event) (j : nat) :
  step s e = Some s' ->
  event_target s e <> Some j ->
  nozzle_at j s' = nozzle_at j s.
Proof.
  unfold nozzle_at. intros Hstep Htarget.
  destruct e as [t nid c | h]; simpl in *.
  - unfold post in Hstep. destruct (_ && _); [|done].
    simpl in Hstep. injection Hstep as <-.
    unfold post_command. simpl.
    destruct (find_nozzle nid (nozzles s)) as [[ix n]|]; simpl in *; [|done].
    rewrite (run_command_other c ix n (set_now t s)); [done|congruence].
  - unfold fire in Hstep.
    destruct (list_find _ _) as [[k tm]|]; [|done]. simpl in Htarget.
    destruct (forallb _ _); [|done]. injection Hstep as <-.
    unfold run_callback.
    destruct (callback tm) as [ix|ix|ix]; simpl in Htarget.
    + rewrite promote_other; [done|congruence].
    + rewrite tick_other; [done|congruence].
    + rewrite reset_other; [done|congruence].
Qed.

Lemma X2_event_changes_only_its_target_witness :
  nozzle_at 7 (state_after (start_fueling "05" ++ [Fire 1])%list)
  = nozzle_at 7 (state_after (start_fueling "05")).
Proof.
  apply (X2_event_changes_only_its_target _ _ (Fire 1)).
  - vm_compute. reflexivity.
  - vm_compute. discriminate.
Defined.

(** X3: a command that is none of the three [case] labels (another
    string, a label in another letter case, a value that is not a
    string) falls through the [switch]: the reply is 200 success with the
    nozzle record and the state is the one received. *)
Theorem X3_unrecognised_command_is_ignored
    (s : State) (nozzleId command : JsValue) (ix : nat) (n : Nozzle) :
  find_nozzle nozzleId (nozzles s) = Some (ix, n) ->
  command <> JsString "AUTHORIZE" ->
  command <> JsString "BLOCK" ->
  command <> JsString "FREE" ->
  post_command nozzleId command s = (s, Json 200 (Success n)).
Proof.
  intros Hfind HA HB HF. rewrite (post_command_found _ _ _ _ _ Hfind).
  apply find_nozzle_Some in Hfind as [Hix _].
  unfold run_command. rewrite !decide_False by done. by rewrite Hix.
Qed.

Lemma X3_unrecognised_command_is_ignored_witness :
  post_command (JsString "05") (JsString "block") initial_state
  = (initial_state, Json 200 (Success (mkNozzle "05" Free None))).
Proof.
  apply (X3_unrecognised_command_is_ignored
           initial_state (JsString "05") (JsString "block") 4);
    [reflexivity | discriminate..].
Defined.

(** X4: nothing ever happens without a [BLOCK]. Every nozzle starts
    Free and only [BLOCK] leads out of Free, so a run that contains no
    [BLOCK] request leaves the array as it was at start-up and never
    schedules a timer; in particular no timer can fire in it. *)
Theorem X4_nothing_starts_without_block (evs : list Event) (s : State) :
  forallb (fun e => negb (is_block e)) evs = true ->
  run initial_state evs = Some s ->
  nozzles s = initial_nozzles /\ timers s = [] /\
  Forall (fun e => exists t nid c, e = Post t nid c) evs.
Proof.
  assert (Hgen : forall s0,
             Forall (fun n => status n = Free) (nozzles s0) ->
             timers s0 = [] ->
             forallb (fun e => negb (is_block e)) evs = true ->
             run s0 evs = Some s ->
             nozzles s = nozzles s0 /\ timers s = [] /\
             Forall (fun e => exists t nid c, e = Post t nid c) evs).
  { induction evs as [|e evs IH]; intros s0 Hfree Htm Hnb Hrun.
    - simpl in Hrun. injection Hrun as <-. auto.
    - simpl in Hrun. destruct (step s0 e) as [s1|] eqn:He; [|done].
      simpl in Hnb. apply andb_prop in Hnb as [Hne Hnb].
      assert (nozzles s1 = nozzles s0 /\ timers s1 = [] /\
              exists t nid c, e = Post t nid c) as (Hn1 & Ht1 & Hpost).
      { destruct e as [t nid c | h]; simpl in He.
        - unfold post in He. destruct (_ && _); [|done].
          simpl in He. injection He as <-.
          unfold post_command. simpl.
          destruct (find_nozzle nid (nozzles s0)) as [[ix n]|] eqn:Hfind;
            simpl; [|eauto 10].
          apply find_nozzle_Some in Hfind as [Hix _].
          assert (Hst : status n = Free).
          { rewrite Forall_forall in Hfree. apply Hfree.
            by eapply list_elem_of_lookup_2. }
          simpl in Hne. apply negb_true_iff, bool_decide_eq_false in Hne.
          unfold run_command. repeat case_decide; simpl;
            try done; try (destruct H0; congruence); eauto 10.
          split; [|eauto 10].
          apply alter_fixed with (x := n); [done|].
          unfold set_status. destruct n; simpl in *. by subst.
        - unfold fire in He. by rewrite Htm in He. }
      destruct (IH s1) as (Hn & Ht & Hall); try done;
        [by rewrite Hn1|].
      split; [congruence|]. split; [done|]. by constructor. }
  intros Hnb Hrun. apply (Hgen initial_state); try done.
  apply Forall_forall. intros n Hn.
  apply list_elem_of_In, in_map_iff in Hn as (i & <- & _). done.
Qed.

Lemma X4_nothing_starts_without_block_witness :
  nozzles (set_now 5000 initial_state) = initial_nozzles /\
  timers (set_now 5000 initial_state) = [] /\
  Forall (fun e => exists t nid c, e = Post t nid c)
         [cmd 0 "05" "AUTHORIZE"; cmd 100 "07" "FREE";
          cmd 5000 "05" "AUTHORIZE"].
Proof.
  apply X4_nothing_starts_without_block;
    vm_compute; reflexivity.
Defined.

(** X5: [BLOCK] followed by [AUTHORIZE] arms a nozzle whatever its
    status was before (Free, Authorized in the middle of a fueling,
    Completed, ...): the second reply shows the nozzle Ready, with the
    fueling record it had, and one promotion timer has been added, due
    2000 ms later. *)
Theorem X5_block_then_authorize_arms
    (s : State) (nozzleId : JsValue) (ix : nat) (n : Nozzle) :
  find_nozzle nozzleId (nozzles s) = Some (ix, n) ->
  exists s2,
    post_command nozzleId (JsString "AUTHORIZE")
                 (fst (post_command nozzleId (JsString "BLOCK") s))
      = (s2, Json 200 (Success (set_status Ready n))) /\
    nozzle_at ix s2 = Some (set_status Ready n) /\
    timers s2 = (timers s ++
                 [mkTimer (next_handle s) (now s + 2000) (Promote ix)])%list.
Proof.
  intros Hfind.
  rewrite (post_command_found _ _ _ _ _ Hfind). simpl.
  assert (Hb : run_command (JsString "BLOCK") ix n s
               = update_nozzle ix (set_status Blocked) s).
  { unfold run_command.
    rewrite decide_False by discriminate. by rewrite decide_True. }
  rewrite Hb.
  assert (Hfind' : find_nozzle nozzleId
                     (nozzles (update_nozzle ix (set_status Blocked) s))
                   = Some (ix, set_status Blocked n))
    by (by apply find_nozzle_alter).
  rewrite (post_command_found _ _ _ _ _ Hfind').
  apply find_nozzle_Some in Hfind as [Hix _].
  unfold run_command. rewrite decide_True by done.
  rewrite decide_True by (by right).
  exists (setTimer 2000 (Promote ix)
            (update_nozzle ix (set_status Ready)
               (update_nozzle ix (set_status Blocked) s))).
  split; [|split]; [| |reflexivity].
  - simpl. rewrite list_alter_alter_eq, list_lookup_alter_eq, Hix. done.
  - unfold nozzle_at. simpl.
    rewrite list_alter_alter_eq, list_lookup_alter_eq, Hix. done.
Qed.

Lemma X5_block_then_authorize_arms_witness :
  exists s2,
    post_command (JsString "05") (JsString "AUTHORIZE")
      (fst (post_command (JsString "05") (JsString "BLOCK")
                         (state_after first_tick)))
      = (s2, Json 200
               (Success (set_status Ready
                           (mkNozzle "05" Authorized
                                     (Some (fueling_after 1)))))) /\
    nozzle_at 4 s2
      = Some (set_status Ready
                (mkNozzle "05" Authorized (Some (fueling_after 1)))) /\
    timers s2 = (timers (state_after first_tick) ++
                 [mkTimer (next_handle (state_after first_tick))
                          (now (state_after first_tick) + 2000)
                          (Promote 4)])%list.
Proof.
  apply (X5_block_then_authorize_arms (state_after first_tick)
           (JsString "05") 4
           (mkNozzle "05" Authorized (Some (fueling_after 1)))).
  vm_compute. reflexivity.
Defined.

(** X6: of [BLOCK] and [FREE] sent to the same nozzle one after the
    other, only the second one shows: state and reply are those of the
    second command alone. In particular each of the two is idempotent. *)
Theorem X6_block_free_last_wins
    (s : State) (nozzleId c1 c2 : JsValue) (ix : nat) (n : Nozzle) :
  find_nozzle nozzleId (nozzles s) = Some (ix, n) ->
  c1 = JsString "BLOCK" \/ c1 = JsString "FREE" ->
  c2 = JsString "BLOCK" \/ c2 = JsString "FREE" ->
  post_command nozzleId c2 (fst (post_command nozzleId c1 s))
  = post_command nozzleId c2 s.
Proof.
  intros Hfind H1 H2.
  assert (Hcmd : forall c st,
             (c = JsString "BLOCK" /\ st = Blocked) \/
             (c = JsString "FREE" /\ st = Free) ->
             forall s0 n0, run_command c ix n0 s0
                           = update_nozzle ix (set_status st) s0).
  { intros c st [[-> ->]|[-> ->]] s0 n0; unfold run_command.
    - rewrite decide_False by discriminate. by rewrite decide_True.
    - rewrite !decide_False by discriminate. by rewrite decide_True. }
  assert (exists st1, (c1 = JsString "BLOCK" /\ st1 = Blocked) \/
                      (c1 = JsString "FREE" /\ st1 = Free)) as [st1 Hc1]
    by (destruct H1; eauto).
  assert (exists st2, (c2 = JsString "BLOCK" /\ st2 = Blocked) \/
                      (c2 = JsString "FREE" /\ st2 = Free)) as [st2 Hc2]
    by (destruct H2; eauto).
  rewrite (post_command_found _ _ c1 _ _ Hfind). simpl.
  rewrite (Hcmd c1 st1 Hc1).
  assert (Hfind' : find_nozzle nozzleId
                     (nozzles (update_nozzle ix (set_status st1) s))
                   = Some (ix, set_status st1 n))
    by (by apply find_nozzle_alter).
  rewrite (post_command_found _ _ c2 _ _ Hfind').
  rewrite (post_command_found _ _ c2 _ _ Hfind).
  rewrite !(Hcmd c2 st2 Hc2).
  apply find_nozzle_Some in Hfind as [Hix _].
  unfold update_nozzle. simpl.
  rewrite list_alter_alter_eq, !list_lookup_alter_eq, Hix. simpl.
  repeat f_equal.
Qed.

Lemma X6_block_free_last_wins_witness :
  post_command (JsString "05") (JsString "FREE")
    (fst (post_command (JsString "05") (JsString "BLOCK")
                       (state_after first_tick)))
  = post_command (JsString "05") (JsString "FREE") (state_after first_tick).
Proof.
  apply (X6_block_free_last_wins (state_after first_tick)
           (JsString "05") (JsString "BLOCK") (JsString "FREE") 4
           (mkNozzle "05" Authorized (Some (fueling_after 1))));
    [vm_compute; reflexivity | by left | by right].
Defined.

(** ** The 41 fueling records in closed form *)

Lemma fueling_after_closed k :
  (k <= 40)%nat ->
  volume (fueling_after k) = decimal (5 * Z.of_nat k) 1 /\
  price (fueling_after k) = decimal 589 2 /\
  (total (fueling_after k) = decimal (589 * Z.of_nat k / 2) 2 \/
   (Z.odd (Z.of_nat k) = true /\
    total (fueling_after k) = decimal ((589 * Z.of_nat k + 1) / 2) 2)) /\
  geb (volume (fueling_after k)) (of_Z 20) = (40 <=? k)%nat /\
  toFixed2 (total (fueling_after k))
    = toFixed2 (mul (volume (fueling_after k)) (price (fueling_after k))) /\
  Number (toFixed2 (total (fueling_after k))) = total (fueling_after k).
Proof.
  intros Hk.
  assert (Hall :
    (let l := map fueling_after (seq 0 41) in
     forallb (fun k' =>
       let f := nth k' l new_fueling in
       bool_decide (volume f = decimal (5 * Z.of_nat k') 1)
       && bool_decide (price f = decimal 589 2)
       && (bool_decide (total f = decimal (589 * Z.of_nat k' / 2) 2)
           || (Z.odd (Z.of_nat k')
               && bool_decide
                    (total f = decimal ((589 * Z.of_nat k' + 1) / 2) 2)))
       && Bool.eqb (geb (volume f) (of_Z 20)) (40 <=? k')%nat
       && bool_decide (toFixed2 (total f)
                       = toFixed2 (mul (volume f) (price f)))
       && bool_decide (Number (toFixed2 (total f)) = total f))
       (seq 0 41)) = true) by (vm_compute; reflexivity).
  cbv zeta in Hall. rewrite forallb_forall in Hall.
  specialize (Hall k (ltac:(apply in_seq; lia))).
  rewrite fueling_list_nth in Hall by lia.
  apply andb_prop in Hall as [Hall H6].
  apply andb_prop in Hall as [Hall H5].
  apply andb_prop in Hall as [Hall H4].
  apply andb_prop in Hall as [Hall H3].
  apply andb_prop in Hall as [H1 H2].
  apply bool_decide_eq_true in H1, H2, H5, H6.
  apply Bool.eqb_prop in H4.
  split; [exact H1|]. split; [exact H2|].
  split; [|split; [exact H4|split; [exact H5|exact H6]]].
  apply orb_prop in H3 as [H3|H3].
  - left. by apply bool_decide_eq_true in H3.
  - right. apply andb_prop in H3 as [Hodd H3].
    split; [done|]. by apply bool_decide_eq_true in H3.
Qed.

(** X8: a Completed nozzle always shows the same record: volume 20,
    total 117.80, price 5.89. The completion test [volume >= 20] first
    succeeds at the 40th tick, where the volume is exactly 20. *)
Theorem X8_completed_record (s : State) (ix : nat) (n : Nozzle) :
  reachable s ->
  nozzle_at ix s = Some n ->
  status n = Completed ->
  currentFueling n
  = Some (mkFueling (of_Z 20) (decimal 11780 2) (decimal 589 2)).
Proof.
  intros Hs. revert ix n.
  cut (reachable s /\
       forall ix n, nozzle_at ix s = Some n -> status n = Completed ->
                    currentFueling n = Some (fueling_after 40)).
  { intros [_ H] ix n Hix Hst. rewrite (H ix n Hix Hst).
    vm_compute. reflexivity. }
  revert s Hs.
  apply (reachable_invariant
           (fun s => reachable s /\
              forall ix n, nozzle_at ix s = Some n -> status n = Completed ->
                           currentFueling n = Some (fueling_after 40))).
  - split; [by exists []|]. intros ix n Hix.
    unfold nozzle_at in Hix. apply list_elem_of_lookup_2 in Hix.
    apply list_elem_of_In, in_map_iff in Hix as (i & <- & _). discriminate.
  - intros s e s' [Hs IH] He. split; [by eapply reachable_step|].
    intros ix n' Hix' Hst'.
    destruct (step_nozzle_back s e s' ix n' He Hix') as (n & Hix & Hns).
    inversion Hns; subst; simpl in Hst'; try discriminate; try congruence;
      eauto.
    destruct (fueling_table s ix n f Hs Hix H0) as (k & Hk & -> & Hlt).
    specialize (Hlt H). simpl.
    change (tick_fueling (fueling_after k)) with (fueling_after (S k)) in *.
    destruct (fueling_after_closed (S k)) as (_ & _ & _ & Hge & _); [lia|].
    rewrite H1 in Hge. symmetry in Hge. apply Nat.leb_le in Hge.
    replace (S k) with 40%nat by lia. done.
Qed.

Lemma X8_completed_record_witness :
  currentFueling (mkNozzle "05" Completed (Some (fueling_after 40)))
  = Some (mkFueling (of_Z 20) (decimal 11780 2) (decimal 589 2)).
Proof.
  apply (X8_completed_record (state_after (complete_fueling "05")) 4).
  - exists (complete_fueling "05"). vm_compute. reflexivity.
  - vm_compute. reflexivity.
  - reflexivity.
Defined.

(** X9: every fueling record the server ever holds has a volume of
    exactly k/2 litres for some k from 0 to 40 (the repeated addition of
    0.5 does not drift, and the volume never exceeds 20), the price 5.89,
    and a total that is a whole number of cents c within half a cent of
    5.89 times the volume, equal to it whenever that product is a whole
    number of cents. *)
Theorem X9_records_in_closed_form
    (s : State) (ix : nat) (n : Nozzle) (f : FuelingData) :
  reachable s ->
  nozzle_at ix s = Some n ->
  currentFueling n = Some f ->
  exists (k : nat) (c : Z),
    (k <= 40)%nat /\
    volume f = decimal (5 * Z.of_nat k) 1 /\
    leb (volume f) (of_Z 20) = true /\
    price f = decimal 589 2 /\
    total f = decimal c 2 /\
    589 * Z.of_nat k - 1 <= 2 * c <= 589 * Z.of_nat k + 1 /\
    (Z.even (Z.of_nat k) = true -> 2 * c = 589 * Z.of_nat k).
Proof.
  intros Hs Hix Hf.
  destruct (fueling_table s ix n f Hs Hix Hf) as (k & Hk & -> & _).
  destruct (fueling_after_closed k Hk) as (Hv & Hp & Ht & _).
  assert (Hle : leb (volume (fueling_after k)) (of_Z 20) = true).
  { replace (of_Z 20) with (volume (fueling_after 40))
      by (vm_compute; reflexivity).
    by apply volume_table_monotone. }
  destruct Ht as [Ht|[Hodd Ht]].
  - exists k, (589 * Z.of_nat k / 2).
    split; [exact Hk|]. split; [exact Hv|]. split; [exact Hle|].
    split; [exact Hp|]. split; [exact Ht|].
    pose proof (Z.div_mod (589 * Z.of_nat k) 2 (ltac:(lia))) as Hdm.
    pose proof (Z.mod_pos_bound (589 * Z.of_nat k) 2 (ltac:(lia))) as Hb.
    split; [lia|].
    intros Hev. apply Z.even_spec in Hev as [m Hm].
    rewrite Hm. replace (589 * (2 * m)) with (589 * m * 2) by lia.
    rewrite Z.div_mul by lia. lia.
  - exists k, ((589 * Z.of_nat k + 1) / 2).
    split; [exact Hk|]. split; [exact Hv|]. split; [exact Hle|].
    split; [exact Hp|]. split; [exact Ht|].
    pose proof (Z.div_mod (589 * Z.of_nat k + 1) 2 (ltac:(lia))) as Hdm.
    pose proof (Z.mod_pos_bound (589 * Z.of_nat k + 1) 2 (ltac:(lia))) as Hb.
    split; [lia|].
    intros Hev. rewrite <- Z.negb_odd, Hodd in Hev. discriminate.
Qed.

Lemma X9_records_in_closed_form_witness :
  exists (k : nat) (c : Z),
    (k <= 40)%nat /\
    volume (fueling_after 1) = decimal (5 * Z.of_nat k) 1 /\
    leb (volume (fueling_after 1)) (of_Z 20) = true /\
    price (fueling_after 1) = decimal 589 2 /\
    total (fueling_after 1) = decimal c 2 /\
    589 * Z.of_nat k - 1 <= 2 * c <= 589 * Z.of_nat k + 1 /\
    (Z.even (Z.of_nat k) = true -> 2 * c = 589 * Z.of_nat k).
Proof.
  apply (X9_records_in_closed_form (state_after first_tick) 4
           (mkNozzle "05" Authorized (Some (fueling_after 1)))).
  - exists first_tick. vm_compute. reflexivity.
  - vm_compute. reflexivity.
  - reflexivity.
Defined.



(** ** A whole fueling, when nothing else is pending *)

Lemma alter_as_insert {X} (f : X -> X) (l : list X) (i : nat) (x : X) :
  l !! i = Some x -> alter f i l = <[i := f x]> l.
Proof.
  revert i. induction l as [|y l IH]; intros [|i] Hi; simpl in *;
    try done.
  - by injection Hi as ->.
  - f_equal. by apply IH.
Qed.

Lemma alter_insert_eq {X} (f : X -> X) (l : list X) (i : nat) (x : X) :
  (i < length l)%nat -> alter f i (<[i := x]> l) = <[i := f x]> l.
Proof.
  intros Hi.
  rewrite (alter_as_insert f _ i x) by (by apply list_lookup_insert_eq).
  apply list_insert_insert_eq.
Qed.

Ltac state_eq :=
  f_equal; try lia; try reflexivity; repeat (f_equal; try lia).

(** The only pending timer fires at its due time. *)
Lemma fire_single h s tm :
  timers s = [tm] -> handle tm = h -> now s <= due tm ->
  fire h s = Some (run_callback tm (set_now (due tm) s)).
Proof.
  intros Htm Hh Hnow. unfold fire. rewrite Htm. simpl.
  rewrite decide_True by done. simpl.
  rewrite Z.leb_refl. simpl. by rewrite Z.max_r by lia.
Qed.

Lemma tick_on_idle_server s ix n t k :
  (ix < length (nozzles s))%nat ->
  (k < 39)%nat ->
  step (ticking_state s ix n t k) (Fire (S (next_handle s)))
  = Some (ticking_state s ix n t (S k)).
Proof.
  intros Hix Hk. simpl.
  rewrite (fire_single _ _ (mkTimer (S (next_handle s))
                              (t + 2000 + 500 * Z.of_nat (S k)) (Tick ix)));
    [|reflexivity|reflexivity|simpl; lia].
  f_equal. unfold run_callback, tick. simpl.
  rewrite list_lookup_insert_eq by done. simpl.
  change (tick_fueling (fueling_after k)) with (fueling_after (S k)).
  change (add (volume (fueling_after k)) (decimal 5 1))
    with (volume (fueling_after (S k))).
  destruct (fueling_after_closed (S k)) as (_ & _ & _ & Hge & _); [lia|].
  rewrite Hge. replace (40 <=? S k)%nat with false
    by (symmetry; apply Nat.leb_gt; lia).
  unfold rearm, update_nozzle, ticking_state. simpl.
  rewrite decide_True by done.
  rewrite alter_insert_eq by done. simpl.
  state_eq.
Qed.

Lemma last_tick_on_idle_server s ix n t k :
  (ix < length (nozzles s))%nat ->
  k = 39%nat ->
  step (ticking_state s ix n t k) (Fire (S (next_handle s)))
  = Some (mkState (t + 2000 + 500 * Z.of_nat (S k))
            (<[ix := mkNozzle (id n) Completed (Some (fueling_after (S k)))]>
               (nozzles s))
            [mkTimer (S (S (next_handle s)))
                     (t + 2000 + 500 * Z.of_nat (S k) + 3000) (Reset ix)]
            (S (S (S (next_handle s))))).
Proof.
  intros Hix Hk. cbn [step].
  rewrite (fire_single _ _ (mkTimer (S (next_handle s))
                              (t + 2000 + 500 * Z.of_nat (S k)) (Tick ix)));
    [|reflexivity|reflexivity|simpl; lia].
  f_equal. unfold run_callback, tick. simpl.
  rewrite list_lookup_insert_eq by done. simpl.
  change (tick_fueling (fueling_after k)) with (fueling_after (S k)).
  change (add (volume (fueling_after k)) (decimal 5 1))
    with (volume (fueling_after (S k))).
  destruct (fueling_after_closed (S k)) as (_ & _ & _ & Hge & _); [lia|].
  rewrite Hge. replace (40 <=? S k)%nat with true
    by (symmetry; apply Nat.leb_le; lia).
  unfold clearTimer, setTimer, update_nozzle. simpl.
  rewrite filter_cons_False by (simpl; intros H; by apply H).
  rewrite filter_cons_True by (simpl; lia).
  rewrite filter_nil.
  rewrite !alter_insert_eq by (try rewrite length_insert; done).
  reflexivity.
Qed.

Lemma ticks_on_idle_server s ix n t j :
  (ix < length (nozzles s))%nat ->
  forall k, (k + j <= 39)%nat ->
  run (ticking_state s ix n t k) (repeat (Fire (S (next_handle s))) j)
  = Some (ticking_state s ix n t (k + j)).
Proof.
  intros Hix. induction j as [|j IH]; intros k Hk.
  - simpl. by rewrite Nat.add_0_r.
  - cbn [repeat run]. rewrite tick_on_idle_server by lia.
    rewrite IH by lia. do 2 f_equal. lia.
Qed.

(** X10: a fueling on an idle server runs its full course. If the
    nozzle is Waiting or Blocked and no timer at all is pending, then
    after [AUTHORIZE] at time t the nozzle is Authorized with the fresh
    record at t + 2000, shows exactly k ticks (volume k/2) at
    t + 2000 + 500 k for every k up to 39, is Completed by the 40th tick
    at t + 22000 and is Free again, without a record and with no timer
    left, at t + 25000; no other nozzle changes on the way. *)
Theorem X10_fueling_runs_to_completion
    (s : State) (nid : string) (ix : nat) (n : Nozzle) (t : Z) :
  find_nozzle (JsString nid) (nozzles s) = Some (ix, n) ->
  status n = Waiting \/ status n = Blocked ->
  timers s = [] ->
  now s <= t ->
  (forall k, (k <= 39)%nat ->
     run s (fueling_run s nid t k) = Some (ticking_state s ix n t k)) /\
  run s (fueling_run s nid t 40)
    = Some (mkState (t + 22000)
              (<[ix := mkNozzle (id n) Completed (Some (fueling_after 40))]>
                 (nozzles s))
              [mkTimer (S (S (next_handle s))) (t + 25000) (Reset ix)]
              (S (S (S (next_handle s))))) /\
  run s (fueling_run s nid t 40 ++ [Fire (S (S (next_handle s)))])%list
    = Some (mkState (t + 25000)
              (<[ix := mkNozzle (id n) Free None]> (nozzles s))
              []
              (S (S (S (next_handle s))))).
Proof.
  intros Hfind Hst Htm Hnow.
  pose proof Hfind as Hfind0.
  apply find_nozzle_Some in Hfind0 as [Hix Hid].
  assert (Hlen : (ix < length (nozzles s))%nat)
    by (by eapply lookup_lt_Some).
  (* the request and the promotion *)
  assert (Hstart : run s [cmd t nid "AUTHORIZE"; Fire (next_handle s)]
                   = Some (ticking_state s ix n t 0)).
  { cbn [run step cmd]. unfold post. rewrite Htm.
    replace (now s <=? t) with true by (symmetry; apply Z.leb_le; lia).
    cbn [forallb andb fmap option_fmap option_map].
    assert (Hf : find_nozzle (JsString nid) (nozzles (set_now t s))
                 = Some (ix, n)) by done.
    rewrite (post_command_found _ _ _ _ _ Hf). cbn [fst].
    unfold run_command. rewrite decide_True by done.
    rewrite decide_True by done.
    rewrite (fire_single _ _ (mkTimer (next_handle s) (t + 2000) (Promote ix)));
      [|by (simpl; rewrite Htm)|reflexivity|simpl; lia].
    f_equal. unfold run_callback, promote, clearTimer. simpl.
    rewrite Htm. simpl.
    rewrite filter_cons_False by (simpl; intros H; by apply H).
    rewrite filter_nil.
    rewrite list_lookup_alter_eq, Hix. simpl.
    unfold setTimer, update_nozzle, ticking_state. simpl.
    rewrite list_alter_alter_eq.
    rewrite (alter_as_insert _ _ _ _ Hix). simpl.
    state_eq. }
  assert (Hticks : forall k, (k <= 39)%nat ->
            run s (fueling_run s nid t k) = Some (ticking_state s ix n t k)).
  { intros k Hk. unfold fueling_run.
    change (cmd t nid "AUTHORIZE" :: Fire (next_handle s)
              :: repeat (Fire (S (next_handle s))) k)
      with ([cmd t nid "AUTHORIZE"; Fire (next_handle s)]
              ++ repeat (Fire (S (next_handle s))) k)%list.
    rewrite run_app, Hstart. simpl.
    by rewrite (ticks_on_idle_server s ix n t k Hlen 0%nat) by lia. }
  (* the 40th tick *)
  assert (H40 : run s (fueling_run s nid t 40)
    = Some (mkState (t + 22000)
              (<[ix := mkNozzle (id n) Completed (Some (fueling_after 40))]>
                 (nozzles s))
              [mkTimer (S (S (next_handle s))) (t + 25000) (Reset ix)]
              (S (S (S (next_handle s)))))).
  { replace (fueling_run s nid t 40)
      with (fueling_run s nid t 39 ++ [Fire (S (next_handle s))])%list.
    2:{ reflexivity. }
    rewrite run_app, Hticks by lia. cbn [mbind option_bind run].
    rewrite (last_tick_on_idle_server s ix n t 39 Hlen eq_refl).
    do 2 f_equal; [lia|]. do 2 f_equal. lia. }
  split; [exact Hticks|]. split; [exact H40|].
  rewrite run_app, H40. cbn [mbind option_bind run step].
  generalize (fueling_after 40). intros f40.
  rewrite (fire_single _ _ (mkTimer (S (S (next_handle s)))
                              (t + 25000) (Reset ix)));
    [|reflexivity|reflexivity|simpl; lia].
  f_equal. unfold run_callback, reset, clearTimer, update_nozzle. simpl.
  rewrite filter_cons_False by (simpl; intros H; by apply H).
  rewrite filter_nil.
  rewrite alter_insert_eq by done. reflexivity.
Qed.

Lemma X10_fueling_runs_to_completion_witness :
  run (state_after [cmd 0 "05" "BLOCK"])
      (fueling_run (state_after [cmd 0 "05" "BLOCK"]) "05" 1000 3)
  = Some (ticking_state (state_after [cmd 0 "05" "BLOCK"]) 4
            (mkNozzle "05" Blocked None) 1000 3).
Proof.
  apply (proj1 (X10_fueling_runs_to_completion
                  (state_after [cmd 0 "05" "BLOCK"]) "05" 4
                  (mkNozzle "05" Blocked None) 1000
                  ltac:(vm_compute; reflexivity)
                  ltac:(right; reflexivity)
                  ltac:(vm_compute; reflexivity)
                  ltac:(vm_compute; discriminate))).
  lia.
Defined.

(** ** Properties of the dashboard against the server *)

Lemma state_eta s :
  mkState (now s) (nozzles s) (timers s) (next_handle s) = s.
Proof. by destruct s. Qed.

Lemma set_status_same st n : status n = st -> set_status st n = n.
Proof. intros <-. by destruct n. Qed.

(** X12: the control panel disables a command button exactly when the
    command would change nothing. For the server's record of a nozzle:
    with the button disabled the request returns the state untouched;
    with the button enabled it gives the nozzle a status it did not have
    (Ready, Blocked or Free respectively). *)
Theorem X12_buttons_match_server
    (s : State) (nozzleId : JsValue) (ix : nat) (n : Nozzle) :
  find_nozzle nozzleId (nozzles s) = Some (ix, n) ->
  (if authorize_disabled n
   then fst (post_command nozzleId (JsString "AUTHORIZE") s) = s
   else nozzle_at ix (fst (post_command nozzleId (JsString "AUTHORIZE") s))
          = Some (set_status Ready n) /\ status n <> Ready) /\
  (if block_disabled n
   then fst (post_command nozzleId (JsString "BLOCK") s) = s
   else nozzle_at ix (fst (post_command nozzleId (JsString "BLOCK") s))
          = Some (set_status Blocked n) /\ status n <> Blocked) /\
  (if free_disabled n
   then fst (post_command nozzleId (JsString "FREE") s) = s
   else nozzle_at ix (fst (post_command nozzleId (JsString "FREE") s))
          = Some (set_status Free n) /\ status n <> Free).
Proof.
  intros Hfind.
  rewrite !(post_command_found _ _ _ _ _ Hfind). cbn [fst].
  apply find_nozzle_Some in Hfind as [Hix _].
  assert (Hsame : forall st, status n = st ->
                    update_nozzle ix (set_status st) s = s).
  { intros st Hst. unfold update_nozzle.
    rewrite (alter_fixed _ _ _ n Hix) by (by apply set_status_same).
    apply state_eta. }
  unfold run_command.
  rewrite (decide_True (P := JsString "AUTHORIZE" = JsString "AUTHORIZE"))
    by done.
  rewrite (decide_False (P := JsString "BLOCK" = JsString "AUTHORIZE"))
    by discriminate.
  rewrite (decide_True (P := JsString "BLOCK" = JsString "BLOCK")) by done.
  rewrite (decide_False (P := JsString "FREE" = JsString "AUTHORIZE"))
    by discriminate.
  rewrite (decide_False (P := JsString "FREE" = JsString "BLOCK"))
    by discriminate.
  rewrite (decide_True (P := JsString "FREE" = JsString "FREE")) by done.
  unfold authorize_disabled, block_disabled, free_disabled.
  split; [|split].
  - destruct (decide (status n = Waiting \/ status n = Blocked)) as [Hst|Hst].
    + rewrite bool_decide_eq_true_2
        by (rewrite !elem_of_cons; destruct Hst as [-> | ->]; auto).
      simpl. split; [by apply update_nozzle_at|]. destruct Hst; congruence.
    + rewrite bool_decide_eq_false_2; [done|].
      intros Hin. apply Hst.
      rewrite !elem_of_cons, elem_of_nil in Hin. tauto.
  - case_bool_decide as Hst; [by apply Hsame|].
    split; [by apply update_nozzle_at|done].
  - case_bool_decide as Hst; [by apply Hsame|].
    split; [by apply update_nozzle_at|done].
Qed.

Lemma X12_buttons_match_server_witness :
  (if authorize_disabled (mkNozzle "05" Free None)
   then fst (post_command (JsString "05") (JsString "AUTHORIZE")
                          initial_state) = initial_state
   else nozzle_at 4 (fst (post_command (JsString "05") (JsString "AUTHORIZE")
                                       initial_state))
          = Some (set_status Ready (mkNozzle "05" Free None)) /\
        status (mkNozzle "05" Free None) <> Ready) /\
  (if block_disabled (mkNozzle "05" Free None)
   then fst (post_command (JsString "05") (JsString "BLOCK")
                          initial_state) = initial_state
   else nozzle_at 4 (fst (post_command (JsString "05") (JsString "BLOCK")
                                       initial_state))
          = Some (set_status Blocked (mkNozzle "05" Free None)) /\
        status (mkNozzle "05" Free None) <> Blocked) /\
  (if free_disabled (mkNozzle "05" Free None)
   then fst (post_command (JsString "05") (JsString "FREE")
                          initial_state) = initial_state
   else nozzle_at 4 (fst (post_command (JsString "05") (JsString "FREE")
                                       initial_state))
          = Some (set_status Free (mkNozzle "05" Free None)) /\
        status (mkNozzle "05" Free None) <> Free).
Proof.
  apply (X12_buttons_match_server initial_state (JsString "05") 4
           (mkNozzle "05" Free None)).
  reflexivity.
Defined.

(** X13: polling keeps the selection on the same nozzle. An invocation
    of [fetchStatus] whose closure has the dashboard connected and a
    selected nozzle that came from an earlier snapshot (index ix of a
    reachable state), and which receives the array that
    [GET /api/status] returns in any later state, makes exactly three
    setter calls, in this order: [setNozzles] with that array,
    [setSelectedNozzle] with the server's current record at the same
    index, which has the same id, and [setLoading(false)]. *)
Theorem X13_poll_tracks_selection
    (s s' : State) (data : list Nozzle) (ix : nat) (cur n' : Nozzle) :
  reachable s -> reachable s' ->
  get_status s' = Json 200 (NozzleList data) ->
  nozzle_at ix s = Some cur ->
  nozzle_at ix s' = Some n' ->
  fetchStatus true (Some cur) (Some data)
    = [SetNozzles (nozzles s'); SetSelectedNozzle n'; SetLoading false]
  /\ id n' = id cur.
Proof.
  intros Hs Hs' [= <-] Hix Hix'. unfold nozzle_at in *.
  pose proof (reachable_ids s Hs) as Hids.
  pose proof (reachable_ids s' Hs') as Hids'.
  assert (Hid : id n' = id cur).
  { assert (H1 : map id (nozzles s) !! ix = Some (id cur))
      by (by rewrite list_lookup_fmap, Hix).
    assert (H2 : map id (nozzles s') !! ix = Some (id n'))
      by (by rewrite list_lookup_fmap, Hix').
    rewrite Hids in H1. rewrite Hids' in H2. congruence. }
  split; [|done].
  unfold fetchStatus. simpl.
  assert (Hfind : list_find (fun n => id n = id cur) (nozzles s')
                  = Some (ix, n')).
  { apply list_find_Some. split; [done|]. split; [done|].
    intros j y Hj Hlt Hy.
    assert (Hnd : NoDup (map id (nozzles s'))).
    { rewrite Hids'. apply (bool_decide_unpack _). vm_compute. exact I. }
    assert (j = ix); [|lia].
    eapply (NoDup_lookup _ _ _ (id cur) Hnd).
    - by rewrite list_lookup_fmap, Hj, <- Hy.
    - by rewrite list_lookup_fmap, Hix', <- Hid. }
  by rewrite Hfind.
Qed.

Lemma X13_poll_tracks_selection_witness :
  fetchStatus true (Some (mkNozzle "05" Free None))
              (Some (nozzles (state_after first_tick)))
  = [SetNozzles (nozzles (state_after first_tick));
     SetSelectedNozzle (mkNozzle "05" Authorized (Some (fueling_after 1)));
     SetLoading false]
  /\ id (mkNozzle "05" Authorized (Some (fueling_after 1)))
     = id (mkNozzle "05" Free None).
Proof.
  apply (X13_poll_tracks_selection initial_state (state_after first_tick)
           (nozzles (state_after first_tick)) 4).
  - by exists [].
  - exists first_tick. vm_compute. reflexivity.
  - reflexivity.
  - reflexivity.
  - vm_compute. reflexivity.
Defined.
